(** * Pull-request comment reconciliation (src/comment-pr.ts)

    A shallow embedding of [commentPr] and [findCommentByMarker].

    The TypeScript code is asynchronous and effectful: it sets an action
    output, logs warnings and debug lines, and talks to the GitHub REST API
    (paginated [listComments], [updateComment], [createComment]); each
    network call may throw.  The embedding keeps all of that observable:
    an action is the sequence of effects it performed together with either
    the value it returned or the value it threw.  The effects performed
    before a throw are kept, as in JavaScript.

    Strings are [String.string]; one character stands for one UTF-16 code
    unit, so that [String.length] is JavaScript's [.length]. *)

From Stdlib Require Import String Ascii List ZArith Bool Lia.
Import ListNotations.

Local Open Scope string_scope.
Local Open Scope Z_scope.

(** ** Strings *)

(** The line feed of the template literal [`${a}\n\n${b}`]. *)
Definition LF : string := String (ascii_of_nat 10) EmptyString.

(** [s.length], as an integer. *)
Definition strlen (s : string) : Z := Z.of_nat (String.length s).

(** [s.includes(m)]: [m] occurs in [s] at some position. *)
Fixpoint includes (s m : string) : bool :=
  String.prefix m s
  || match s with
     | EmptyString => false
     | String _ s' => includes s' m
     end.

(** ** Data *)

(** A comment as [listComments] returns it: [id] is a number, [body] may
    be absent. *)
Record Comment : Type := mkComment {
  id : Z;
  body : option string
}.

(** [github.context.payload.pull_request], when present. *)
Record PullRequest : Type := mkPullRequest {
  number : Z
}.

(** [github.context]: the repository coordinates and the event payload. *)
Record Context : Type := mkContext {
  owner : string;
  repo : string;
  pull_request : option PullRequest
}.

(** [ConfigurationOptions] (declared in ./schemas); only the field read
    here. *)
Record ConfigurationOptions : Type := mkConfig {
  comment_summary_in_pr : string
}.

(** [core.summary]: [stringify()] returns the buffer. *)
Record Summary : Type := mkSummary {
  buffer : string
}.

Definition stringify (summary : Summary) : string := buffer summary.

(** A value caught by [catch (error)], by what the handler can tell of it:
    an instance of the [RequestError] imported at line 5 (which is an
    [Error]) with its [status] and [message], another [Error] with its
    [message], or any other value. *)
Inductive Thrown : Type :=
| ThrownRequestError (status : Z) (message : string)
| ThrownError (message : string)
| ThrownOther.

(** What the client of lines 8-11 throws for an error response of the API
    with status [status].  The client is built from [@actions/github]
    (package.json: ^5.1.1), whose requests throw the [RequestError] of the
    [@octokit/request-error] that package brings with it (2.x), a class
    other than the one line 5 imports (package.json: ^3.0.3).  The value is
    an [Error] with a [status] and a [message], and not an instance of the
    imported class: to the handler it is another [Error], whose [status]
    the test of line 73 does not reach. *)
Definition client_api_error (status : Z) (message : string) : Thrown :=
  ThrownError message.

(** What one step of [octo.paginate.iterator] gives: a page of comments
    (the [data] of the response) or a failed request. *)
Inductive PageResponse : Type :=
| PageData (comments : list Comment)
| PageFails (error : Thrown).

(** The world [commentPr] runs in: [process.exitCode], [github.context]
    and the behaviour of the remote API.  [pages] are the answers to the
    successive page requests of the comment listing; the two write calls
    answer by resolving ([None]) or by throwing. *)
Record Env : Type := mkEnv {
  exitCode : option Z;
  context : Context;
  pages : list PageResponse;
  updateComment_throws : Z -> string -> option Thrown;
  createComment_throws : Z -> string -> option Thrown
}.

(** ** Effects *)

Inductive Event : Type :=
| SetOutput (name value : string)
| Warning (message : string)
| Debug (message : string)
| ListComments (owner repo : string) (issue_number : Z)
| UpdateComment (owner repo : string) (comment_id : Z) (body : string)
| CreateComment (owner repo : string) (issue_number : Z) (body : string).

Inductive Outcome (A : Type) : Type :=
| Returns (a : A)
| Throws (e : Thrown).

Arguments Returns {A} a.
Arguments Throws {A} e.

(** An action: the effects performed, in order, and how it ended. *)
Definition Action (A : Type) : Type := (list Event * Outcome A)%type.

Definition ret {A} (a : A) : Action A := ([], Returns a).

Definition throw {A} (e : Thrown) : Action A := ([], Throws e).

Definition emit (ev : Event) : Action unit := ([ev], Returns tt).

Definition bind {A B} (m : Action A) (k : A -> Action B) : Action B :=
  match m with
  | (t, Returns a) => let (t', r) := k a in ((t ++ t')%list, r)
  | (t, Throws e) => (t, Throws e)
  end.

(** [try { m } catch (error) { h error }]. *)
Definition try_catch {A} (m : Action A) (h : Thrown -> Action A) : Action A :=
  match m with
  | (t, Returns a) => (t, Returns a)
  | (t, Throws e) => let (t', r) := h e in ((t ++ t')%list, r)
  end.

Declare Scope action_scope.
Delimit Scope action_scope with action.

Notation "x <- m ;; k" := (bind m (fun x => k))
  (at level 100, m at next level, right associativity) : action_scope.
Notation "m ;; k" := (bind m (fun _ => k))
  (at level 100, right associativity) : action_scope.

Local Open Scope action_scope.

Definition trace {A} (m : Action A) : list Event := fst m.
Definition outcome {A} (m : Action A) : Outcome A := snd m.

(** ** Constants *)

Definition COMMENT_MARKER : string :=
  "<!-- dependency-review-pr-comment-marker -->".

Definition MAX_COMMENT_LENGTH : Z := 65536.

(** [core.ExitCode.Failure]. *)
Definition ExitCode_Failure : Z := 1.

(** ** The remote API *)

(** A write call is issued, then resolves or throws. *)
Definition updateComment (env : Env) (o r : string) (comment_id : Z)
    (b : string) : Action unit :=
  emit (UpdateComment o r comment_id b) ;;
  match updateComment_throws env comment_id b with
  | Some e => throw e
  | None => ret tt
  end.

Definition createComment (env : Env) (o r : string) (issue_number : Z)
    (b : string) : Action unit :=
  emit (CreateComment o r issue_number b) ;;
  match createComment_throws env issue_number b with
  | Some e => throw e
  | None => ret tt
  end.

(** ** findCommentByMarker *)

(** [comment.body?.includes(commentBodyIncludes)], as a truth value:
    [undefined] when the body is absent. *)
Definition body_includes (commentBodyIncludes : string) (comment : Comment)
    : bool :=
  match body comment with
  | Some b => includes b commentBodyIncludes
  | None => false
  end.

(** The [for await] loop over the page iterator: each turn requests one
    page, which throws or gives the comments to search. *)
Fixpoint findInPages (o r : string) (issue_number : Z)
    (commentBodyIncludes : string) (ps : list PageResponse)
    : Action (option Z) :=
  match ps with
  | [] => ret None
  | p :: rest =>
      emit (ListComments o r issue_number) ;;
      match p with
      | PageFails e => throw e
      | PageData comments =>
          match find (body_includes commentBodyIncludes) comments with
          | Some existingComment => ret (Some (id existingComment))
          | None => findInPages o r issue_number commentBodyIncludes rest
          end
      end
  end.

(** The message of the TypeError of [pull_request!.number] on an absent
    pull request. *)
Definition no_pull_request_error : Thrown :=
  ThrownError "Cannot read properties of undefined (reading 'number')".

Definition findCommentByMarker (env : Env) (commentBodyIncludes : string)
    : Action (option Z) :=
  match pull_request (context env) with
  | None => throw no_pull_request_error
  | Some pr =>
      findInPages (owner (context env)) (repo (context env)) (number pr)
        commentBodyIncludes (pages env)
  end.

(** ** commentPr *)

(** The test [if (existingCommentId)] on a [number | undefined]:
    [undefined] and [0] are falsy; in the true branch the value is the
    number. *)
Definition truthy (v : option Z) : option Z :=
  match v with
  | Some n => if n =? 0 then None else Some n
  | None => None
  end.

Definition policy_allows (env : Env) (config : ConfigurationOptions) : bool :=
  (comment_summary_in_pr config =? "always")%string
  || ((comment_summary_in_pr config =? "on-failure")%string
      && match exitCode env with
         | Some c => c =? ExitCode_Failure
         | None => false
         end).

Definition not_in_pr_warning : string :=
  "Not in the context of a pull request. Skipping comment creation.".

Definition too_big_debug : string :=
  "The comment was too big for the GitHub API. Falling back on a minimum comment".

Definition permission_warning : string :=
  "Unable to write summary to pull-request. Make sure you are giving this workflow the permission 'pull-requests: write'.".

Definition error_warning (message : string) : string :=
  "Unable to comment summary to pull-request, received error: " ++ message.

Definition unexpected_warning : string :=
  "Unable to comment summary to pull-request: Unexpected fatal error".

(** The [catch (error)] block. *)
Definition handle_error (error : Thrown) : Action unit :=
  match error with
  | ThrownRequestError status message =>
      if status =? 403 then emit (Warning permission_warning)
      else emit (Warning (error_warning message))
  | ThrownError message => emit (Warning (error_warning message))
  | ThrownOther => emit (Warning unexpected_warning)
  end.

(** The body of the [try] block: look the marked comment up, then update
    it or create one. *)
Definition commentPr_try (env : Env) (pr : PullRequest) (commentBody : string)
    : Action unit :=
  existingCommentId <- findCommentByMarker env COMMENT_MARKER ;;
  match truthy existingCommentId with
  | Some comment_id =>
      updateComment env (owner (context env)) (repo (context env))
        comment_id commentBody
  | None =>
      createComment env (owner (context env)) (repo (context env))
        (number pr) commentBody
  end.

Definition commentPr (env : Env) (summary : Summary)
    (config : ConfigurationOptions) (minComment : string) : Action unit :=
  let commentContent := stringify summary in
  emit (SetOutput "comment-content" commentContent) ;;
  if negb (policy_allows env config) then ret tt
  else
    match pull_request (context env) with
    | None => emit (Warning not_in_pr_warning)
    | Some pr =>
        let commentBody := commentContent ++ LF ++ LF ++ COMMENT_MARKER in
        commentBody <-
          (if MAX_COMMENT_LENGTH <=? strlen commentBody
           then emit (Debug too_big_debug) ;;
                ret (minComment ++ LF ++ LF ++ COMMENT_MARKER)
           else ret commentBody) ;;
        try_catch (commentPr_try env pr commentBody) handle_error
    end.

(** ** Observations on traces *)

(** A request to the remote API, read or write. *)
Definition is_network (ev : Event) : bool :=
  match ev with
  | ListComments _ _ _ | UpdateComment _ _ _ _ | CreateComment _ _ _ _ => true
  | _ => false
  end.

Definition is_read (ev : Event) : bool :=
  match ev with
  | ListComments _ _ _ => true
  | _ => false
  end.

Definition is_write (ev : Event) : bool :=
  match ev with
  | UpdateComment _ _ _ _ | CreateComment _ _ _ _ => true
  | _ => false
  end.

Definition is_warning (ev : Event) : bool :=
  match ev with
  | Warning _ => true
  | _ => false
  end.

Definition is_set_output (ev : Event) : bool :=
  match ev with
  | SetOutput _ _ => true
  | _ => false
  end.

Definition is_debug (ev : Event) : bool :=
  match ev with
  | Debug _ => true
  | _ => false
  end.

(** The body a write request carries. *)
Definition written_body (ev : Event) : option string :=
  match ev with
  | UpdateComment _ _ _ b | CreateComment _ _ _ b => Some b
  | _ => None
  end.

(** ** The specification's vocabulary *)

(** The policy check of the specification: the policy is "always", or it
    is "on-failure" and the run has recorded a failure. *)
Definition PolicySatisfied (env : Env) (config : ConfigurationOptions) : Prop :=
  comment_summary_in_pr config = "always"
  \/ (comment_summary_in_pr config = "on-failure"
      /\ exitCode env = Some ExitCode_Failure).

Definition InPullRequestContext (env : Env) : Prop :=
  pull_request (context env) <> None.

(** [m] is a substring of [s]. *)
Definition Substring (m s : string) : Prop :=
  exists pre post, s = pre ++ m ++ post.

(** A comment whose body is present and contains the marker. *)
Definition Marked (marker : string) (c : Comment) : Prop :=
  exists b, body c = Some b /\ Substring marker b.

(** The specification's CommentBody: the rendered body, a separator and
    the marker, or the same on the fallback body when that reaches the
    ceiling. *)
Definition CommentBody (renderedBody fallbackBody : string) : string :=
  if MAX_COMMENT_LENGTH <=? strlen (renderedBody ++ LF ++ LF ++ COMMENT_MARKER)
  then fallbackBody ++ LF ++ LF ++ COMMENT_MARKER
  else renderedBody ++ LF ++ LF ++ COMMENT_MARKER.

(** ** Closed forms used in the proofs *)

(** The warning the [catch] block logs for a caught value. *)
Definition warning_for (error : Thrown) : string :=
  match error with
  | ThrownRequestError status message =>
      if status =? 403 then permission_warning else error_warning message
  | ThrownError message => error_warning message
  | ThrownOther => unexpected_warning
  end.

(** What the write request answers. *)
Definition answer (throws : option Thrown) : Outcome unit :=
  match throws with
  | Some e => Throws e
  | None => Returns tt
  end.

(** The log a caught value leaves: one warning. *)
Definition caught {A} (o : Outcome A) : list Event :=
  match o with
  | Throws e => [Warning (warning_for e)]
  | Returns _ => []
  end.

(** The debug line of the size check. *)
Definition size_log (commentContent : string) : list Event :=
  if MAX_COMMENT_LENGTH <=? strlen (commentContent ++ LF ++ LF ++ COMMENT_MARKER)
  then [Debug too_big_debug] else [].

(** The write requests of [commentPr], in order. *)
Definition expected_writes (env : Env) (summary : Summary)
    (config : ConfigurationOptions) (minComment : string) : list Event :=
  if policy_allows env config then
    match pull_request (context env) with
    | None => []
    | Some pr =>
        match outcome (findCommentByMarker env COMMENT_MARKER) with
        | Throws _ => []
        | Returns v =>
            match truthy v with
            | Some n =>
                [UpdateComment (owner (context env)) (repo (context env)) n
                   (CommentBody (stringify summary) minComment)]
            | None =>
                [CreateComment (owner (context env)) (repo (context env))
                   (number pr) (CommentBody (stringify summary) minComment)]
            end
        end
    end
  else [].

(** The number of page requests in a trace. *)
Definition fetches (t : list Event) : nat := length (filter is_read t).

(** What a run does after the lookup: the write request, or the warning
    for what the lookup threw, then the warning for what the write threw. *)
Definition after_lookup (env : Env) (pr : PullRequest) (b : string)
    (found : Outcome (option Z)) : list Event :=
  match found with
  | Throws e => [Warning (warning_for e)]
  | Returns v =>
      match truthy v with
      | Some n =>
          UpdateComment (owner (context env)) (repo (context env)) n b
          :: caught (answer (updateComment_throws env n b))
      | None =>
          CreateComment (owner (context env)) (repo (context env))
            (number pr) b
          :: caught (answer (createComment_throws env (number pr) b))
      end
  end.

(** A request is addressed to the repository of the context and, where it
    names an issue, to the pull request of the context. *)
Definition addressed_to (ctx : Context) (ev : Event) : Prop :=
  match ev with
  | ListComments o r n | CreateComment o r n _ =>
      o = owner ctx /\ r = repo ctx
      /\ exists pr, pull_request ctx = Some pr /\ n = number pr
  | UpdateComment o r _ _ => o = owner ctx /\ r = repo ctx
  | _ => True
  end.

(** The remote can answer a request by throwing [e]. *)
Definition remote_may_throw (env : Env) (e : Thrown) : Prop :=
  In (PageFails e) (pages env)
  \/ (exists n b, updateComment_throws env n b = Some e)
  \/ (exists n b, createComment_throws env n b = Some e).

(** A page that is delivered and holds no marked comment. *)
Definition unmarked_page (marker : string) (p : PageResponse) : Prop :=
  exists cs, p = PageData cs /\ forall c, In c cs -> ~ Marked marker c.

(** ** Sample worlds *)

Definition never_throws (_ : Z) (_ : string) : option Thrown := None.

Definition ctx_pr : Context := mkContext "octo" "demo" (Some (mkPullRequest 7)).
Definition ctx_push : Context := mkContext "octo" "demo" None.

Definition marked_body : string := "Summary" ++ LF ++ LF ++ COMMENT_MARKER.

Definition env_of (code : option Z) (ctx : Context) (ps : list PageResponse)
    : Env :=
  mkEnv code ctx ps never_throws never_throws.

Definition always : ConfigurationOptions := mkConfig "always".
Definition on_failure : ConfigurationOptions := mkConfig "on-failure".
Definition never : ConfigurationOptions := mkConfig "never".

Definition report : Summary := mkSummary "# Dependency Review".

(** A rendered body of 70000 characters. *)
Definition big_report : Summary :=
  mkSummary (string_of_list_ascii (repeat "x"%char (Z.to_nat 70000))).

(** A fallback body of 66000 characters. *)
Definition big_fallback : string :=
  string_of_list_ascii (repeat "y"%char (Z.to_nat 66000)).

(** A remote that refuses the write with status 403, as the client
    reports it. *)
Definition api_forbidden (_ : Z) (_ : string) : option Thrown :=
  Some (client_api_error 403 "Resource not accessible by integration").

Definition forbidden (_ : Z) (_ : string) : option Thrown :=
  Some (ThrownRequestError 403 "Resource not accessible by integration").

Definition two_pages : list (list Comment) :=
  [[mkComment 5 (Some "hello"); mkComment 6 None];
   [mkComment 42 (Some marked_body); mkComment 43 (Some marked_body)]].

(** ** Runs on concrete inputs (the scenarios of the specification) *)

(** Scenario A: no prior marked comment, short body: one create. *)
Example scenario_A :
  commentPr (env_of None ctx_pr [PageData [mkComment 5 (Some "hello")]])
    report always "min"
  = ([SetOutput "comment-content" "# Dependency Review";
      ListComments "octo" "demo" 7;
      CreateComment "octo" "demo" 7
        ("# Dependency Review" ++ LF ++ LF ++ COMMENT_MARKER)],
     Returns tt).
Proof. reflexivity. Qed.

(** Scenario B: a prior marked comment with id 42: one update of it. *)
Example scenario_B :
  commentPr
    (env_of None ctx_pr
       [PageData [mkComment 5 None; mkComment 42 (Some marked_body)]])
    report always "min"
  = ([SetOutput "comment-content" "# Dependency Review";
      ListComments "octo" "demo" 7;
      UpdateComment "octo" "demo" 42
        ("# Dependency Review" ++ LF ++ LF ++ COMMENT_MARKER)],
     Returns tt).
Proof. reflexivity. Qed.

(** Scenario C: policy on-failure, run not failed: nothing is requested. *)
Example scenario_C :
  commentPr (env_of None ctx_pr [PageData []]) report on_failure "min"
  = ([SetOutput "comment-content" "# Dependency Review"], Returns tt).
Proof. reflexivity. Qed.

(** The policy check on the combinations of the specification's P5. *)
Example policy_always_not_failed :
  policy_allows (env_of None ctx_pr []) always = true.
Proof. reflexivity. Qed.

Example policy_on_failure_not_failed :
  policy_allows (env_of (Some 0) ctx_pr []) on_failure = false.
Proof. reflexivity. Qed.

Example policy_on_failure_failed :
  policy_allows (env_of (Some 1) ctx_pr []) on_failure = true.
Proof. reflexivity. Qed.

(** Scenario D: a rendered body of 70000 characters: the fallback is
    submitted, the output keeps the rendered body. *)
Example scenario_D :
  commentPr (env_of None ctx_pr [PageData []]) big_report always "min"
  = ([SetOutput "comment-content" (stringify big_report);
      Debug too_big_debug;
      ListComments "octo" "demo" 7;
      CreateComment "octo" "demo" 7 ("min" ++ LF ++ LF ++ COMMENT_MARKER)],
     Returns tt).
Proof.
  match goal with |- _ = ?r => vm_cast_no_check (@eq_refl _ r) end.
Qed.

(** The same with a fallback body of 66000 characters: it is submitted
    as it is. *)
Example scenario_big_fallback :
  commentPr (env_of None ctx_pr [PageData []]) big_report always big_fallback
  = ([SetOutput "comment-content" (stringify big_report);
      Debug too_big_debug;
      ListComments "octo" "demo" 7;
      CreateComment "octo" "demo" 7
        (big_fallback ++ LF ++ LF ++ COMMENT_MARKER)],
     Returns tt).
Proof.
  match goal with |- _ = ?r => vm_cast_no_check (@eq_refl _ r) end.
Qed.

(** ** Strings: [includes] decides [Substring] *)

Lemma prefix_iff (m s : string) :
  String.prefix m s = true <-> exists post, s = m ++ post.
Proof.
  revert s. induction m as [|a m IH]; intros s.
  - split; [intros _; exists s; reflexivity | now destruct s].
  - destruct s as [|b s]; simpl.
    + split; [discriminate | intros [post H]; discriminate H].
    + destruct (ascii_dec a b) as [->|Hab].
      * rewrite IH. split; intros [post H]; exists post.
        -- now rewrite H.
        -- now injection H.
      * split; [discriminate | intros [post H]; injection H; congruence].
Qed.

Lemma includes_iff (s m : string) :
  includes s m = true <-> Substring m s.
Proof.
  unfold Substring. induction s as [|a s IH].
  - cbn [includes]. rewrite orb_false_r, prefix_iff. split.
    + intros [post H]. exists "", post. exact H.
    + intros [pre [post H]]. destruct pre; [exists post; exact H | discriminate H].
  - cbn [includes]. rewrite orb_true_iff, prefix_iff, IH. split.
    + intros [[post H] | [pre [post H]]].
      * exists "", post. exact H.
      * exists (String a pre), post. simpl. now rewrite H.
    + intros [pre [post H]]. destruct pre as [|b pre].
      * left. exists post. exact H.
      * right. exists pre, post. simpl in H. now injection H.
Qed.

Lemma includes_append (p m : string) : includes (p ++ m) m = true.
Proof.
  apply includes_iff. exists p, "". f_equal.
  induction m as [|a m IH]; simpl; [reflexivity|].
  now rewrite <- IH.
Qed.

Lemma body_includes_iff (marker : string) (c : Comment) :
  body_includes marker c = true <-> Marked marker c.
Proof.
  unfold body_includes, Marked. destruct (body c) as [b|].
  - rewrite includes_iff. split.
    + intros H. exists b. now split.
    + intros [b' [Hb H]]. now injection Hb as ->.
  - split; [discriminate | intros [b' [Hb _]]; discriminate Hb].
Qed.

(** ** The policy check *)

Lemma policy_allows_iff (env : Env) (config : ConfigurationOptions) :
  policy_allows env config = true <-> PolicySatisfied env config.
Proof.
  unfold policy_allows, PolicySatisfied.
  rewrite orb_true_iff, andb_true_iff, !String.eqb_eq.
  destruct (exitCode env) as [c|].
  - rewrite Z.eqb_eq. split; (intros [H | [H1 H2]]; [now left | right; split; congruence]).
  - split; (intros [H | [H1 H2]]; [now left | discriminate]).
Qed.

Lemma policy_allows_false (env : Env) (config : ConfigurationOptions) :
  ~ PolicySatisfied env config -> policy_allows env config = false.
Proof.
  intros H. destruct (policy_allows env config) eqn:E; [|reflexivity].
  now apply policy_allows_iff in E.
Qed.

(** ** The monad *)

Lemma bind_returns {A B} (m : Action A) (k : A -> Action B) t a :
  m = (t, Returns a) ->
  bind m k = ((t ++ trace (k a))%list, outcome (k a)).
Proof. intros ->. unfold bind. now destruct (k a). Qed.

(** ** The page loop *)

Lemma findInPages_cons_data o r n marker cs ps :
  findInPages o r n marker (PageData cs :: ps)
  = match find (body_includes marker) cs with
    | Some c => ([ListComments o r n], Returns (Some (id c)))
    | None =>
        (ListComments o r n :: trace (findInPages o r n marker ps),
         outcome (findInPages o r n marker ps))
    end.
Proof.
  simpl. destruct (find (body_includes marker) cs); [reflexivity|].
  now destruct (findInPages o r n marker ps).
Qed.

(** The loop requests pages and does nothing else. *)
Lemma findInPages_trace o r n marker ps :
  exists k, (k <= length ps)%nat
    /\ trace (findInPages o r n marker ps) = repeat (ListComments o r n) k.
Proof.
  induction ps as [|p ps [k [Hk IH]]].
  - exists 0%nat. now split.
  - destruct p as [cs|e].
    + rewrite findInPages_cons_data.
      destruct (find (body_includes marker) cs).
      * exists 1%nat. split; [simpl; lia | reflexivity].
      * exists (S k). split; [simpl; lia|].
        unfold trace in *. cbn [fst repeat]. now rewrite IH.
    + exists 1%nat. split; [simpl; lia | reflexivity].
Qed.

Lemma findCommentByMarker_reads env marker :
  Forall (fun ev => is_read ev = true) (trace (findCommentByMarker env marker)).
Proof.
  unfold findCommentByMarker. destruct (pull_request (context env)) as [pr|].
  - destruct (findInPages_trace (owner (context env)) (repo (context env))
                (number pr) marker (pages env)) as [k [_ ->]].
    apply Forall_forall. intros ev H. now apply repeat_spec in H as ->.
  - constructor.
Qed.

Lemma findInPages_throws_read o r n marker ps e :
  outcome (findInPages o r n marker ps) = Throws e ->
  exists t, trace (findInPages o r n marker ps) = ListComments o r n :: t.
Proof.
  destruct ps as [|[cs|e'] ps]; [discriminate| |].
  - rewrite findInPages_cons_data.
    destruct (find (body_includes marker) cs); [discriminate|].
    intros _. now eexists.
  - intros _. now eexists.
Qed.

(** ** The shape of a run *)

Lemma handle_error_warns (error : Thrown) :
  handle_error error = ([Warning (warning_for error)], Returns tt).
Proof.
  destruct error as [status message|message|]; simpl; [|reflexivity..].
  now destruct (status =? 403).
Qed.

Lemma commentPr_try_eq (env : Env) (pr : PullRequest) (b : string) :
  commentPr_try env pr b
  = let o := owner (context env) in
    let r := repo (context env) in
    let t := trace (findCommentByMarker env COMMENT_MARKER) in
    match outcome (findCommentByMarker env COMMENT_MARKER) with
    | Throws e => (t, Throws e)
    | Returns v =>
        match truthy v with
        | Some n =>
            ((t ++ [UpdateComment o r n b])%list,
             answer (updateComment_throws env n b))
        | None =>
            ((t ++ [CreateComment o r (number pr) b])%list,
             answer (createComment_throws env (number pr) b))
        end
    end.
Proof.
  unfold commentPr_try.
  destruct (findCommentByMarker env COMMENT_MARKER) as [t [v|e]]; [|reflexivity].
  cbn [trace outcome fst snd].
  erewrite bind_returns by reflexivity.
  unfold updateComment, createComment.
  destruct (truthy v) as [n|]; cbn.
  - now destruct (updateComment_throws env n b).
  - now destruct (createComment_throws env (number pr) b).
Qed.

Lemma try_catch_handle_error (m : Action unit) :
  try_catch m handle_error = ((trace m ++ caught (outcome m))%list, Returns tt).
Proof.
  destruct m as [t [[]|e]]; simpl.
  - now rewrite app_nil_r.
  - now rewrite handle_error_warns.
Qed.

Lemma commentPr_rejected env summary config minComment :
  policy_allows env config = false ->
  commentPr env summary config minComment
  = ([SetOutput "comment-content" (stringify summary)], Returns tt).
Proof. intros H. unfold commentPr. now rewrite H. Qed.

Lemma commentPr_no_pull_request env summary config minComment :
  policy_allows env config = true ->
  pull_request (context env) = None ->
  commentPr env summary config minComment
  = ([SetOutput "comment-content" (stringify summary);
      Warning not_in_pr_warning], Returns tt).
Proof. intros H1 H2. unfold commentPr. now rewrite H1, H2. Qed.

Lemma commentPr_gated env summary config minComment pr :
  policy_allows env config = true ->
  pull_request (context env) = Some pr ->
  commentPr env summary config minComment
  = let m := commentPr_try env pr (CommentBody (stringify summary) minComment) in
    ((SetOutput "comment-content" (stringify summary)
      :: size_log (stringify summary) ++ trace m ++ caught (outcome m))%list,
     Returns tt).
Proof.
  intros H1 H2. unfold commentPr, CommentBody, size_log.
  rewrite H1, H2. cbn [negb].
  destruct (MAX_COMMENT_LENGTH <=? _); cbn;
    now rewrite try_catch_handle_error.
Qed.

(** Once the gate is passed, something is requested from the remote. *)
Lemma commentPr_try_network (env : Env) (pr : PullRequest) (b : string) :
  pull_request (context env) = Some pr ->
  existsb is_network (trace (commentPr_try env pr b)) = true.
Proof.
  intros Hpr. rewrite commentPr_try_eq. cbv zeta.
  destruct (outcome (findCommentByMarker env COMMENT_MARKER)) as [v|e] eqn:E.
  - destruct (truthy v); cbn [trace fst]; rewrite existsb_app; simpl;
      apply orb_true_r.
  - cbn [trace fst]. unfold findCommentByMarker in *. rewrite Hpr in *.
    destruct (findInPages_throws_read _ _ _ _ _ _ E) as [t ->]. reflexivity.
Qed.

Lemma size_log_quiet (commentContent : string) (p : Event -> bool) :
  p (Debug too_big_debug) = false ->
  existsb p (size_log commentContent) = false.
Proof.
  intros H. unfold size_log. destruct (MAX_COMMENT_LENGTH <=? _); simpl;
    [now rewrite H | reflexivity].
Qed.

Lemma size_log_filter (commentContent : string) (p : Event -> bool) :
  p (Debug too_big_debug) = false ->
  filter p (size_log commentContent) = [].
Proof.
  intros H. unfold size_log. destruct (MAX_COMMENT_LENGTH <=? _); simpl;
    [now rewrite H | reflexivity].
Qed.

Lemma reads_filter (p : Event -> bool) (t : list Event) :
  (forall o r n, p (ListComments o r n) = false) ->
  Forall (fun ev => is_read ev = true) t ->
  filter p t = [].
Proof.
  intros Hp Ht. induction Ht as [|ev t Hev _ IH]; [reflexivity|].
  destruct ev; try discriminate Hev. simpl. now rewrite Hp.
Qed.

Lemma caught_filter {A} (p : Event -> bool) (o : Outcome A) :
  (forall w, p (Warning w) = false) -> filter p (caught o) = [].
Proof. intros Hp. destruct o; simpl; [reflexivity | now rewrite Hp]. Qed.

(** * The claims *)

(** C1. A request to the remote (read or write) is made exactly when the
    policy is "always", or "on-failure" with a recorded failure, and the
    invocation is in a pull-request context; in every other combination of
    policy, failure flag and context no request is made. *)
Theorem commentPr_attempts_iff_gate env summary config minComment :
  existsb is_network (trace (commentPr env summary config minComment)) = true
  <-> ((comment_summary_in_pr config = "always"
        \/ (comment_summary_in_pr config = "on-failure"
            /\ exitCode env = Some 1))
       /\ pull_request (context env) <> None).
Proof.
  change (existsb is_network (trace (commentPr env summary config minComment))
          = true
          <-> PolicySatisfied env config /\ InPullRequestContext env).
  unfold InPullRequestContext. rewrite <- policy_allows_iff.
  destruct (policy_allows env config) eqn:Hp.
  - destruct (pull_request (context env)) as [pr|] eqn:Hpr.
    + rewrite (commentPr_gated _ _ _ _ pr Hp Hpr). cbv zeta. cbn [trace fst].
      split; [intros _; split; [reflexivity | discriminate]|intros _].
      cbn [existsb is_network]. rewrite !existsb_app.
      rewrite (commentPr_try_network _ _ _ Hpr).
      now rewrite orb_true_r.
    + rewrite (commentPr_no_pull_request _ _ _ _ Hp Hpr). simpl.
      split; [discriminate | intros [_ H]; now elim H].
  - rewrite (commentPr_rejected _ _ _ _ Hp). simpl.
    split; [discriminate | intros [H _]; discriminate H].
Qed.

(** C2, as stated, fails: outside a pull-request context with a policy
    that does not match, no warning is logged. *)
Lemma context_check_first_fails :
  ~ (forall env summary config minComment,
        pull_request (context env) = None ->
        existsb is_warning (trace (commentPr env summary config minComment))
        = true).
Proof.
  intros H.
  specialize (H (env_of None ctx_push []) report never "min" eq_refl).
  discriminate H.
Qed.

(** C2, amended. The policy check runs first: on a policy mismatch the
    invocation only sets its output and returns, with no warning and no
    request, in or out of a pull-request context; when the policy check
    passes outside a pull-request context, the warning is logged and the
    invocation returns with no request. *)
Theorem commentPr_skips env summary config minComment :
  (~ PolicySatisfied env config ->
   commentPr env summary config minComment
   = ([SetOutput "comment-content" (stringify summary)], Returns tt))
  /\ (PolicySatisfied env config ->
      pull_request (context env) = None ->
      commentPr env summary config minComment
      = ([SetOutput "comment-content" (stringify summary);
          Warning not_in_pr_warning], Returns tt)).
Proof.
  split.
  - intros H. apply commentPr_rejected. now apply policy_allows_false.
  - intros H Hpr. apply commentPr_no_pull_request; [|exact Hpr].
    now apply policy_allows_iff.
Qed.

Lemma commentPr_skips_witness :
  commentPr (env_of None ctx_pr []) report never "min"
  = ([SetOutput "comment-content" "# Dependency Review"], Returns tt)
  /\ commentPr (env_of (Some 1) ctx_push []) report on_failure "min"
     = ([SetOutput "comment-content" "# Dependency Review";
         Warning not_in_pr_warning], Returns tt).
Proof.
  split.
  - apply (proj1 (commentPr_skips (env_of None ctx_pr []) report never "min")).
    intros [H | [H _]]; discriminate H.
  - apply (proj2 (commentPr_skips (env_of (Some 1) ctx_push []) report
                    on_failure "min")).
    + right. split; reflexivity.
    + reflexivity.
Defined.

(** C5, as stated, fails: the output is set on an invocation the policy
    check rejects. *)
Lemma output_only_after_gate_fails :
  ~ (forall env summary config minComment,
        ~ (PolicySatisfied env config /\ InPullRequestContext env) ->
        existsb is_set_output (trace (commentPr env summary config minComment))
        = false).
Proof.
  intros H.
  specialize (H (env_of None ctx_pr []) report never "min").
  simpl in H. discriminate H.
  intros [[E | [E _]] _]; discriminate E.
Qed.

(** The output is the first effect of a run and is not set again. *)
Lemma commentPr_trace_head env summary config minComment :
  exists rest,
    trace (commentPr env summary config minComment)
    = SetOutput "comment-content" (stringify summary) :: rest
    /\ filter is_set_output rest = [].
Proof.
  destruct (policy_allows env config) eqn:Hp.
  - destruct (pull_request (context env)) as [pr|] eqn:Hpr.
    + rewrite (commentPr_gated _ _ _ _ pr Hp Hpr). cbv zeta. cbn [trace fst].
      eexists. split; [reflexivity|].
      rewrite !filter_app.
      rewrite size_log_filter, caught_filter by reflexivity.
      rewrite commentPr_try_eq. cbv zeta.
      pose proof (reads_filter is_set_output _ (fun _ _ _ => eq_refl)
                    (findCommentByMarker_reads env COMMENT_MARKER)) as Hr.
      destruct (outcome (findCommentByMarker env COMMENT_MARKER)) as [v|e].
      * destruct (truthy v); cbn [trace fst]; rewrite filter_app, Hr;
          reflexivity.
      * cbn [trace fst]. now rewrite Hr.
    + rewrite (commentPr_no_pull_request _ _ _ _ Hp Hpr). now eexists.
  - rewrite (commentPr_rejected _ _ _ _ Hp). now eexists.
Qed.

Lemma filter_nil_existsb {A} (p : A -> bool) (l : list A) :
  filter p l = [] -> existsb p l = false.
Proof.
  induction l as [|x l IH]; [reflexivity|]. simpl.
  destruct (p x); [discriminate | exact IH].
Qed.

(** C5, amended. The comment-content output is set exactly once per
    invocation, as its first effect, before the policy and context checks:
    it is set whether the gate passes or rejects. *)
Theorem commentPr_sets_output_first env summary config minComment :
  exists rest,
    trace (commentPr env summary config minComment)
    = SetOutput "comment-content" (stringify summary) :: rest
    /\ existsb is_set_output rest = false.
Proof.
  destruct (commentPr_trace_head env summary config minComment)
    as [rest [Ht Hrest]].
  exists rest. split; [exact Ht | now apply filter_nil_existsb].
Qed.

(** ** The write requests of a run *)

Lemma commentPr_writes env summary config minComment :
  filter is_write (trace (commentPr env summary config minComment))
  = expected_writes env summary config minComment.
Proof.
  unfold expected_writes.
  destruct (policy_allows env config) eqn:Hp.
  - destruct (pull_request (context env)) as [pr|] eqn:Hpr.
    + rewrite (commentPr_gated _ _ _ _ pr Hp Hpr). cbv zeta. cbn [trace fst].
      cbn [filter is_write]. rewrite !filter_app.
      rewrite size_log_filter, caught_filter by reflexivity.
      rewrite commentPr_try_eq. cbv zeta.
      pose proof (reads_filter is_write _ (fun _ _ _ => eq_refl)
                    (findCommentByMarker_reads env COMMENT_MARKER)) as Hr.
      destruct (outcome (findCommentByMarker env COMMENT_MARKER)) as [v|e].
      * destruct (truthy v); cbn [trace fst]; rewrite filter_app, Hr;
          reflexivity.
      * cbn [trace fst]. now rewrite Hr.
    + now rewrite (commentPr_no_pull_request _ _ _ _ Hp Hpr).
  - now rewrite (commentPr_rejected _ _ _ _ Hp).
Qed.

Lemma written_is_write (ev : Event) (b : string) :
  written_body ev = Some b -> is_write ev = true.
Proof. now destruct ev. Qed.

Lemma expected_writes_body env summary config minComment ev b :
  In ev (expected_writes env summary config minComment) ->
  written_body ev = Some b ->
  b = CommentBody (stringify summary) minComment.
Proof.
  unfold expected_writes. intros Hin Hb.
  destruct (policy_allows env config); [|easy].
  destruct (pull_request (context env)); [|easy].
  destruct (outcome (findCommentByMarker env COMMENT_MARKER)) as [v|e]; [|easy].
  destruct (truthy v); destruct Hin as [<-|[]]; simpl in Hb; congruence.
Qed.

(** C3. The body submitted is the rendered body, two line feeds and the
    marker; if and only if that string has length at least 65536 it is
    replaced by the fallback body, two line feeds and the marker.  Every
    write request of a run carries that body, and a run that passes both
    checks and whose lookup returns makes one write request, which carries
    it: the choice is made from the two bodies alone, before anything is
    requested. *)
Theorem submitted_body_size_policy env summary config minComment :
  let full := stringify summary ++ LF ++ LF ++ COMMENT_MARKER in
  (forall ev b,
      In ev (trace (commentPr env summary config minComment)) ->
      written_body ev = Some b ->
      (strlen full >= 65536 -> b = minComment ++ LF ++ LF ++ COMMENT_MARKER)
      /\ (strlen full < 65536 -> b = full))
  /\ (forall pr v,
        PolicySatisfied env config ->
        pull_request (context env) = Some pr ->
        outcome (findCommentByMarker env COMMENT_MARKER) = Returns v ->
        exists ev b,
          filter is_write (trace (commentPr env summary config minComment))
          = [ev]
          /\ written_body ev = Some b
          /\ (strlen full >= 65536 ->
              b = minComment ++ LF ++ LF ++ COMMENT_MARKER)
          /\ (strlen full < 65536 -> b = full)).
Proof.
  intros full.
  assert (Hsize :
            (strlen full >= 65536 ->
             CommentBody (stringify summary) minComment
             = minComment ++ LF ++ LF ++ COMMENT_MARKER)
            /\ (strlen full < 65536 ->
                CommentBody (stringify summary) minComment = full)).
  { unfold CommentBody, MAX_COMMENT_LENGTH. fold full.
    destruct (Z.leb_spec 65536 (strlen full)); split; intros;
      (reflexivity || lia). }
  split.
  - intros ev b Hin Hb.
    assert (Hw : In ev (expected_writes env summary config minComment)).
    { rewrite <- commentPr_writes. apply filter_In. split; [exact Hin|].
      now apply written_is_write with b. }
    rewrite (expected_writes_body _ _ _ _ _ _ Hw Hb). exact Hsize.
  - intros pr v Hp Hpr Hv.
    rewrite commentPr_writes. unfold expected_writes.
    apply policy_allows_iff in Hp. rewrite Hp, Hpr, Hv.
    destruct (truthy v) as [n|]; eexists; eexists;
      (split; [reflexivity | split; [reflexivity | exact Hsize]]).
Qed.

Lemma submitted_body_size_policy_witness :
  (exists ev,
      filter is_write
        (trace (commentPr (env_of None ctx_pr [PageData []]) big_report
                  always "min"))
      = [ev]
      /\ written_body ev = Some ("min" ++ LF ++ LF ++ COMMENT_MARKER))
  /\ (exists ev,
        filter is_write
          (trace (commentPr (env_of None ctx_pr [PageData []]) report
                    always "min"))
        = [ev]
        /\ written_body ev
           = Some (stringify report ++ LF ++ LF ++ COMMENT_MARKER)).
Proof.
  split.
  - destruct (proj2 (submitted_body_size_policy
                       (env_of None ctx_pr [PageData []]) big_report
                       always "min")
                (mkPullRequest 7) None
                (or_introl eq_refl) eq_refl eq_refl)
      as [ev [b [Hw [Hb [Hbig _]]]]].
    exists ev. split; [exact Hw|].
    rewrite Hb. f_equal. apply Hbig. vm_compute. discriminate.
  - destruct (proj2 (submitted_body_size_policy
                       (env_of None ctx_pr [PageData []]) report
                       always "min")
                (mkPullRequest 7) None
                (or_introl eq_refl) eq_refl eq_refl)
      as [ev [b [Hw [Hb [_ Hsmall]]]]].
    exists ev. split; [exact Hw|].
    rewrite Hb. f_equal. apply Hsmall. vm_compute. reflexivity.
Defined.

(** C6. Whenever the comment-content output is set, its value is the full
    rendered body, without the marker: never the fallback body, also when
    the fallback is what the write request carries. *)
Theorem output_is_rendered_body env summary config minComment name value :
  In (SetOutput name value) (trace (commentPr env summary config minComment)) ->
  name = "comment-content" /\ value = stringify summary.
Proof.
  intros Hin.
  destruct (commentPr_trace_head env summary config minComment)
    as [rest [Ht Hrest]].
  rewrite Ht in Hin. destruct Hin as [E | Hin].
  - now injection E as <- <-.
  - assert (H : In (SetOutput name value) (filter is_set_output rest)).
    { apply filter_In. now split. }
    rewrite Hrest in H. destruct H.
Qed.

Lemma output_is_rendered_body_witness :
  "comment-content" = "comment-content"
  /\ "# Dependency Review" = stringify report.
Proof.
  apply (output_is_rendered_body (env_of None ctx_pr [PageData []]) report
           always "min").
  simpl. left. reflexivity.
Defined.

(** C7, as stated, fails: when the listing request fails, the gate has
    passed and neither write request is made. *)
Lemma exactly_one_write_fails :
  ~ (forall env summary config minComment,
        PolicySatisfied env config ->
        InPullRequestContext env ->
        length (filter is_write
                  (trace (commentPr env summary config minComment)))
        = 1%nat).
Proof.
  intros H.
  specialize (H (env_of None ctx_pr [PageFails (ThrownError "socket hang up")])
                report always "min").
  simpl in H. discriminate H.
  - now left.
  - discriminate.
Qed.

(** C7, amended. On every invocation that passes the gate and whose marker
    lookup returns, exactly one write request is made: an update of the
    comment found when the lookup returned a nonzero id, a creation when it
    returned nothing (or the id 0).  When the lookup throws, no write
    request is made. *)
Theorem one_write_when_lookup_returns env summary config minComment pr :
  PolicySatisfied env config ->
  pull_request (context env) = Some pr ->
  let o := owner (context env) in
  let r := repo (context env) in
  let b := CommentBody (stringify summary) minComment in
  let writes :=
    filter is_write (trace (commentPr env summary config minComment)) in
  match outcome (findCommentByMarker env COMMENT_MARKER) with
  | Returns (Some n) =>
      (n <> 0 -> writes = [UpdateComment o r n b])
      /\ (n = 0 -> writes = [CreateComment o r (number pr) b])
  | Returns None => writes = [CreateComment o r (number pr) b]
  | Throws _ => writes = []
  end.
Proof.
  intros Hp Hpr o r b writes. subst writes.
  rewrite commentPr_writes. unfold expected_writes.
  apply policy_allows_iff in Hp. rewrite Hp, Hpr.
  destruct (outcome (findCommentByMarker env COMMENT_MARKER)) as [[n|]|e];
    [|reflexivity..].
  simpl. destruct (Z.eqb_spec n 0); split; intros; (reflexivity || lia).
Qed.

Lemma one_write_when_lookup_returns_witness :
  (42 <> 0 ->
   filter is_write
     (trace (commentPr
               (env_of None ctx_pr [PageData [mkComment 42 (Some marked_body)]])
               report always "min"))
   = [UpdateComment "octo" "demo" 42
        (CommentBody (stringify report) "min")])
  /\ (42 = 0 ->
      filter is_write
        (trace (commentPr
                  (env_of None ctx_pr
                     [PageData [mkComment 42 (Some marked_body)]])
                  report always "min"))
      = [CreateComment "octo" "demo" 7
           (CommentBody (stringify report) "min")]).
Proof.
  apply (one_write_when_lookup_returns
           (env_of None ctx_pr [PageData [mkComment 42 (Some marked_body)]])
           report always "min" (mkPullRequest 7)).
  - left. reflexivity.
  - reflexivity.
Defined.

(** C10. The choice between update and create tests the truthiness of the
    id the lookup returned: when the lookup returns the id 0 of a marked
    comment, the only write request is a creation, not an update of that
    comment. *)
Theorem zero_id_takes_create_path env summary config minComment pr :
  PolicySatisfied env config ->
  pull_request (context env) = Some pr ->
  outcome (findCommentByMarker env COMMENT_MARKER) = Returns (Some 0) ->
  filter is_write (trace (commentPr env summary config minComment))
  = [CreateComment (owner (context env)) (repo (context env)) (number pr)
       (CommentBody (stringify summary) minComment)].
Proof.
  intros Hp Hpr H0.
  rewrite commentPr_writes. unfold expected_writes.
  apply policy_allows_iff in Hp. now rewrite Hp, Hpr, H0.
Qed.

Lemma zero_id_takes_create_path_witness :
  filter is_write
    (trace (commentPr
              (env_of None ctx_pr [PageData [mkComment 0 (Some marked_body)]])
              report always "min"))
  = [CreateComment "octo" "demo" 7 (CommentBody (stringify report) "min")].
Proof.
  apply (zero_id_takes_create_path
           (env_of None ctx_pr [PageData [mkComment 0 (Some marked_body)]])
           report always "min" (mkPullRequest 7)).
  - left. reflexivity.
  - reflexivity.
  - reflexivity.
Defined.

(** ** Errors *)

(** The [try] block throws what the lookup or the write request throws. *)
Lemma commentPr_try_throws (env : Env) (pr : PullRequest) (b : string) e :
  outcome (commentPr_try env pr b) = Throws e
  <-> outcome (findCommentByMarker env COMMENT_MARKER) = Throws e
      \/ exists v,
           outcome (findCommentByMarker env COMMENT_MARKER) = Returns v
           /\ match truthy v with
              | Some n => updateComment_throws env n b = Some e
              | None => createComment_throws env (number pr) b = Some e
              end.
Proof.
  rewrite commentPr_try_eq. cbv zeta.
  destruct (outcome (findCommentByMarker env COMMENT_MARKER)) as [v|e'].
  - split.
    + intros H. right. exists v. split; [reflexivity|].
      destruct (truthy v) as [n|]; cbn [outcome snd] in H;
        match type of H with answer ?x = _ => destruct x end;
        simpl in H; congruence.
    + intros [H | [v' [Hv H]]]; [discriminate H|].
      injection Hv as <-.
      destruct (truthy v); cbn [outcome snd]; now rewrite H.
  - cbn [outcome snd]. split.
    + intros H. left. congruence.
    + intros [H | [v [Hv _]]]; [congruence | discriminate Hv].
Qed.

(** [commentPr] always returns normally.  When the lookup or the write
    request throws, the run ends with one warning, chosen by the class of
    the value as the handler tests it: for an instance of the imported
    [RequestError] with status 403, the warning that asks for the
    permission 'pull-requests: write'; for any other [Error], a warning
    that contains the error's message; for a value that is not an [Error],
    the warning of an unexpected fatal error. *)
Theorem commentPr_never_throws env summary config minComment :
  outcome (commentPr env summary config minComment) = Returns tt
  /\ (forall pr e,
        PolicySatisfied env config ->
        pull_request (context env) = Some pr ->
        outcome (commentPr_try env pr
                   (CommentBody (stringify summary) minComment)) = Throws e ->
        exists t w,
          trace (commentPr env summary config minComment)
          = (t ++ [Warning w])%list
          /\ match e with
             | ThrownRequestError status message =>
                 (status = 403 -> w = permission_warning)
                 /\ (status <> 403 -> w = error_warning message)
             | ThrownError message => w = error_warning message
             | ThrownOther => w = unexpected_warning
             end)
  /\ Substring "the permission 'pull-requests: write'" permission_warning
  /\ (forall message, Substring message (error_warning message))
  /\ unexpected_warning
     = "Unable to comment summary to pull-request: Unexpected fatal error".
Proof.
  split; [|split; [|split; [|split]]].
  - destruct (policy_allows env config) eqn:Hp.
    + destruct (pull_request (context env)) as [pr|] eqn:Hpr.
      * now rewrite (commentPr_gated _ _ _ _ pr Hp Hpr).
      * now rewrite (commentPr_no_pull_request _ _ _ _ Hp Hpr).
    + now rewrite (commentPr_rejected _ _ _ _ Hp).
  - intros pr e Hp Hpr He. apply policy_allows_iff in Hp.
    rewrite (commentPr_gated _ _ _ _ pr Hp Hpr). cbv zeta. cbn [trace fst].
    rewrite He. cbn [caught].
    exists (SetOutput "comment-content" (stringify summary)
            :: size_log (stringify summary)
            ++ trace (commentPr_try env pr
                        (CommentBody (stringify summary) minComment)))%list,
      (warning_for e).
    split.
    + cbn [app]. now rewrite <- app_assoc.
    + destruct e as [status message|message|]; simpl; [|reflexivity..].
      destruct (Z.eqb_spec status 403); split; intros; (reflexivity || lia).
  - apply includes_iff. vm_compute. reflexivity.
  - intros message. apply includes_iff. apply includes_append.
  - reflexivity.
Qed.

Lemma commentPr_never_throws_witness :
  exists t w,
    trace (commentPr (mkEnv None ctx_pr [PageData []] never_throws forbidden)
             report always "min")
    = (t ++ [Warning w])%list
    /\ (403 = 403 -> w = permission_warning)
    /\ (403 <> 403
        -> w = error_warning "Resource not accessible by integration").
Proof.
  apply (proj1 (proj2 (commentPr_never_throws
                         (mkEnv None ctx_pr [PageData []] never_throws forbidden)
                         report always "min"))
           (mkPullRequest 7)
           (ThrownRequestError 403 "Resource not accessible by integration")).
  - left. reflexivity.
  - reflexivity.
  - reflexivity.
Defined.

(** C8, on the refusal it is written for.  The value the client throws
    for an API response with status 403 is not an instance of the imported
    [RequestError]: the handler takes it for another [Error] and logs the
    warning with the error's message, whatever the status, not the warning
    about the permission 'pull-requests: write'.  The run still returns
    normally. *)
Theorem api_403_logs_message_warning :
  (forall status message,
      handle_error (client_api_error status message)
      = ([Warning (error_warning message)], Returns tt))
  /\ commentPr (mkEnv None ctx_pr [PageData []] never_throws api_forbidden)
       report always "min"
     = ([SetOutput "comment-content" "# Dependency Review";
         ListComments "octo" "demo" 7;
         CreateComment "octo" "demo" 7
           ("# Dependency Review" ++ LF ++ LF ++ COMMENT_MARKER);
         Warning
           "Unable to comment summary to pull-request, received error: Resource not accessible by integration"],
        Returns tt)
  /\ existsb
       (fun ev =>
          match ev with
          | Warning w => String.eqb w permission_warning
          | _ => false
          end)
       (trace (commentPr
                 (mkEnv None ctx_pr [PageData []] never_throws api_forbidden)
                 report always "min"))
     = false.
Proof.
  split; [|split].
  - reflexivity.
  - reflexivity.
  - vm_compute. reflexivity.
Qed.

(** ** The marker lookup *)

Lemma find_app {A} (f : A -> bool) (l1 l2 : list A) :
  find f (l1 ++ l2)%list
  = match find f l1 with
    | Some x => Some x
    | None => find f l2
    end.
Proof.
  induction l1 as [|x l1 IH]; [reflexivity|]. simpl. now destruct (f x).
Qed.

Lemma find_first {A} (f : A -> bool) (pre post : list A) (x : A) :
  (forall y, In y pre -> f y = false) ->
  f x = true ->
  find f (pre ++ x :: post)%list = Some x.
Proof.
  intros Hpre Hx. induction pre as [|y pre IH]; simpl.
  - now rewrite Hx.
  - rewrite (Hpre y) by now left. apply IH. intros z Hz. apply Hpre. now right.
Qed.

Lemma find_absent {A} (f : A -> bool) (l : list A) :
  (forall y, In y l -> f y = false) -> find f l = None.
Proof.
  intros H. induction l as [|y l IH]; [reflexivity|]. simpl.
  rewrite (H y) by now left. apply IH. intros z Hz. apply H. now right.
Qed.

Lemma not_marked (marker : string) (c : Comment) :
  ~ Marked marker c -> body_includes marker c = false.
Proof.
  intros H. destruct (body_includes marker c) eqn:E; [|reflexivity].
  now apply body_includes_iff in E.
Qed.

(** On a listing whose requests all succeed, the loop is a search through
    the pages laid end to end. *)
Lemma findInPages_data o r n marker (pgs : list (list Comment)) :
  outcome (findInPages o r n marker (map PageData pgs))
  = Returns (option_map id (find (body_includes marker) (concat pgs))).
Proof.
  induction pgs as [|cs pgs IH]; [reflexivity|].
  cbn [map concat]. rewrite findInPages_cons_data, find_app.
  destruct (find (body_includes marker) cs); [reflexivity | exact IH].
Qed.

(** C4. On every paginated collection, [findCommentByMarker] returns the
    id of the first comment, in pagination order, whose body is present and
    contains the marker as a substring; when no comment of any page is
    such, it returns nothing. *)
Theorem findCommentByMarker_first_marked env pr marker
    (pgs : list (list Comment)) :
  pull_request (context env) = Some pr ->
  pages env = map PageData pgs ->
  (forall pre c post,
      concat pgs = (pre ++ c :: post)%list ->
      (forall c', In c' pre -> ~ Marked marker c') ->
      Marked marker c ->
      outcome (findCommentByMarker env marker) = Returns (Some (id c)))
  /\ ((forall c, In c (concat pgs) -> ~ Marked marker c) ->
      outcome (findCommentByMarker env marker) = Returns None).
Proof.
  intros Hpr Hpages. unfold findCommentByMarker. rewrite Hpr, Hpages.
  rewrite findInPages_data. split.
  - intros pre c post Hcat Hpre Hc. rewrite Hcat.
    rewrite find_first; [reflexivity| |now apply body_includes_iff].
    intros y Hy. apply not_marked. now apply Hpre.
  - intros Hnone. rewrite find_absent; [reflexivity|].
    intros y Hy. apply not_marked. now apply Hnone.
Qed.

Lemma marked_body_Marked (n : Z) :
  Marked COMMENT_MARKER (mkComment n (Some marked_body)).
Proof. apply body_includes_iff. vm_compute. reflexivity. Qed.

Lemma findCommentByMarker_first_marked_witness :
  outcome (findCommentByMarker (env_of None ctx_pr (map PageData two_pages))
             COMMENT_MARKER)
  = Returns (Some 42)
  /\ outcome (findCommentByMarker
                (env_of None ctx_pr
                   (map PageData [[mkComment 5 (Some "hello")]; []]))
                COMMENT_MARKER)
     = Returns None.
Proof.
  split.
  - apply (proj1 (findCommentByMarker_first_marked
                    (env_of None ctx_pr (map PageData two_pages))
                    (mkPullRequest 7) COMMENT_MARKER two_pages
                    eq_refl eq_refl)
             [mkComment 5 (Some "hello"); mkComment 6 None]
             (mkComment 42 (Some marked_body))
             [mkComment 43 (Some marked_body)]).
    + reflexivity.
    + intros c' [<- | [<- | []]] Hm; apply body_includes_iff in Hm;
        discriminate Hm.
    + apply marked_body_Marked.
  - apply (proj2 (findCommentByMarker_first_marked
                    (env_of None ctx_pr
                       (map PageData [[mkComment 5 (Some "hello")]; []]))
                    (mkPullRequest 7) COMMENT_MARKER
                    [[mkComment 5 (Some "hello")]; []]
                    eq_refl eq_refl)).
    intros c [<- | []] Hm. apply body_includes_iff in Hm. discriminate Hm.
Defined.

Lemma marked_found (marker : string) (cs : list Comment) (c : Comment) :
  In c cs -> Marked marker c ->
  exists c', find (body_includes marker) cs = Some c'.
Proof.
  intros Hin Hc. destruct (find (body_includes marker) cs) as [c'|] eqn:E.
  - now exists c'.
  - apply (find_none _ _ E) in Hin. apply body_includes_iff in Hc. congruence.
Qed.

(** The loop stops at the first page that holds a marked comment: the
    pages after it do not count. *)
Lemma findInPages_stops o r n marker pre cs post c :
  In c cs -> Marked marker c ->
  (fetches (trace (findInPages o r n marker (pre ++ PageData cs :: post)))
   <= length pre + 1)%nat.
Proof.
  intros Hin Hc. unfold fetches, trace.
  induction pre as [|p pre IH]; cbn [app].
  - rewrite findInPages_cons_data.
    destruct (marked_found marker cs c Hin Hc) as [c' ->]. simpl. lia.
  - destruct p as [cs'|e].
    + rewrite findInPages_cons_data.
      destruct (find (body_includes marker) cs').
      * simpl. lia.
      * unfold trace. cbn [fst filter is_read length]. lia.
    + simpl. lia.
Qed.

Lemma findInPages_exact o r n marker pre cs post c :
  In c cs -> Marked marker c ->
  (forall p, In p pre ->
     exists cs', p = PageData cs' /\ forall c', In c' cs' -> ~ Marked marker c') ->
  fetches (trace (findInPages o r n marker (pre ++ PageData cs :: post)))
  = (length pre + 1)%nat.
Proof.
  intros Hin Hc Hpre. unfold fetches, trace.
  induction pre as [|p pre IH]; cbn [app].
  - rewrite findInPages_cons_data.
    destruct (marked_found marker cs c Hin Hc) as [c' ->]. reflexivity.
  - destruct (Hpre p (or_introl eq_refl)) as [cs' [-> Hcs']].
    rewrite findInPages_cons_data, find_absent.
    + unfold trace. cbn [fst filter is_read length].
      rewrite IH; [reflexivity|].
      intros q Hq. apply Hpre. now right.
    + intros y Hy. apply not_marked. now apply Hcs'.
Qed.

(** C9. Once a page holds a comment whose body includes the marker, no
    later page is requested: with that page at position [length pre], at
    most [length pre + 1] pages are requested, whatever follows, and
    exactly that many when the pages before it are delivered and hold no
    marked comment. *)
Theorem no_fetch_after_match env pr marker pre cs post c :
  pull_request (context env) = Some pr ->
  pages env = (pre ++ PageData cs :: post)%list ->
  In c cs ->
  Marked marker c ->
  (fetches (trace (findCommentByMarker env marker)) <= length pre + 1)%nat
  /\ ((forall p, In p pre ->
         exists cs',
           p = PageData cs' /\ forall c', In c' cs' -> ~ Marked marker c') ->
      fetches (trace (findCommentByMarker env marker)) = (length pre + 1)%nat).
Proof.
  intros Hpr Hpages Hin Hc. unfold findCommentByMarker. rewrite Hpr, Hpages.
  split.
  - now apply findInPages_stops with c.
  - intros Hpre. now apply findInPages_exact with c.
Qed.

Lemma no_fetch_after_match_witness :
  (fetches (trace (findCommentByMarker
                     (env_of None ctx_pr
                        [PageData [mkComment 42 (Some marked_body)];
                         PageData [mkComment 43 (Some marked_body)]])
                     COMMENT_MARKER))
   <= 1)%nat
  /\ fetches (trace (findCommentByMarker
                       (env_of None ctx_pr
                          [PageData [mkComment 42 (Some marked_body)];
                           PageData [mkComment 43 (Some marked_body)]])
                       COMMENT_MARKER))
     = 1%nat.
Proof.
  pose proof (no_fetch_after_match
                (env_of None ctx_pr
                   [PageData [mkComment 42 (Some marked_body)];
                    PageData [mkComment 43 (Some marked_body)]])
                (mkPullRequest 7) COMMENT_MARKER []
                [mkComment 42 (Some marked_body)]
                [PageData [mkComment 43 (Some marked_body)]]
                (mkComment 42 (Some marked_body))
                eq_refl eq_refl (or_introl eq_refl) (marked_body_Marked 42))
    as [Hle Heq].
  split; [exact Hle|]. apply Heq. intros p [].
Defined.

(** * Further properties of the code *)

(** ** The whole trace of a run that passes both checks *)

Lemma commentPr_gated_trace env summary config minComment pr :
  policy_allows env config = true ->
  pull_request (context env) = Some pr ->
  trace (commentPr env summary config minComment)
  = (SetOutput "comment-content" (stringify summary)
     :: size_log (stringify summary)
     ++ trace (findCommentByMarker env COMMENT_MARKER)
     ++ after_lookup env pr (CommentBody (stringify summary) minComment)
          (outcome (findCommentByMarker env COMMENT_MARKER)))%list.
Proof.
  intros Hp Hpr. rewrite (commentPr_gated _ _ _ _ pr Hp Hpr). cbv zeta.
  cbn [trace fst]. do 2 f_equal. rewrite commentPr_try_eq. cbv zeta.
  unfold after_lookup.
  destruct (outcome (findCommentByMarker env COMMENT_MARKER)) as [v|e].
  - destruct (truthy v); cbn [trace outcome fst snd];
      now rewrite <- app_assoc.
  - reflexivity.
Qed.

Lemma strlen_append (a b : string) : strlen (a ++ b) = strlen a + strlen b.
Proof.
  unfold strlen. induction a as [|x a IH]; [reflexivity|].
  cbn [append String.length]. rewrite !Nat2Z.inj_succ. lia.
Qed.

Lemma strlen_with_marker (s : string) :
  strlen (s ++ LF ++ LF ++ COMMENT_MARKER) = strlen s + 46.
Proof. rewrite strlen_append. reflexivity. Qed.

Lemma written_in_expected env summary config minComment ev b :
  In ev (trace (commentPr env summary config minComment)) ->
  written_body ev = Some b ->
  b = CommentBody (stringify summary) minComment.
Proof.
  intros Hin Hb. apply (expected_writes_body env summary config minComment ev).
  - rewrite <- commentPr_writes. apply filter_In. split; [exact Hin|].
    now apply written_is_write with b.
  - exact Hb.
Qed.

(** ** The lookup and the write, end to end *)

Lemma lookup_delivered env pr marker (pgs : list (list Comment)) :
  pull_request (context env) = Some pr ->
  pages env = map PageData pgs ->
  outcome (findCommentByMarker env marker)
  = Returns (option_map id (find (body_includes marker) (concat pgs))).
Proof.
  intros Hpr Hpages. unfold findCommentByMarker. rewrite Hpr, Hpages.
  apply findInPages_data.
Qed.

Lemma findInPages_unmarked_prefix o r n marker pre rest :
  (forall p, In p pre -> unmarked_page marker p) ->
  findInPages o r n marker (pre ++ rest)
  = ((repeat (ListComments o r n) (length pre)
      ++ trace (findInPages o r n marker rest))%list,
     outcome (findInPages o r n marker rest)).
Proof.
  intros Hpre. induction pre as [|p pre IH]; cbn [app length repeat].
  - now destruct (findInPages o r n marker rest).
  - destruct (Hpre p (or_introl eq_refl)) as [cs [-> Hcs]].
    rewrite findInPages_cons_data, find_absent.
    + rewrite IH by (intros q Hq; apply Hpre; now right). reflexivity.
    + intros y Hy. apply not_marked. now apply Hcs.
Qed.

(** X1. On a listing that is delivered in full, a run that passes both
    checks updates the first comment, in pagination order, whose body
    contains the marker (when its id is not 0), with the composed body,
    and makes no other write request. *)
Theorem first_marked_comment_is_updated
    env summary config minComment pr pgs pre c post :
  PolicySatisfied env config ->
  pull_request (context env) = Some pr ->
  pages env = map PageData pgs ->
  concat pgs = (pre ++ c :: post)%list ->
  (forall c', In c' pre -> ~ Marked COMMENT_MARKER c') ->
  Marked COMMENT_MARKER c ->
  id c <> 0 ->
  (strlen (stringify summary) < 65490
   /\ filter is_write (trace (commentPr env summary config minComment))
      = [UpdateComment (owner (context env)) (repo (context env)) (id c)
           (stringify summary ++ LF ++ LF ++ COMMENT_MARKER)])
  \/ (strlen (stringify summary) >= 65490
      /\ filter is_write (trace (commentPr env summary config minComment))
         = [UpdateComment (owner (context env)) (repo (context env)) (id c)
              (minComment ++ LF ++ LF ++ COMMENT_MARKER)]).
Proof.
  intros Hp Hpr Hpages Hcat Hpre Hc Hid.
  rewrite commentPr_writes. unfold expected_writes.
  apply policy_allows_iff in Hp. rewrite Hp, Hpr.
  rewrite (lookup_delivered env pr COMMENT_MARKER pgs Hpr Hpages), Hcat.
  rewrite find_first;
    [| intros y Hy; apply not_marked; now apply Hpre
     | now apply body_includes_iff].
  cbn [option_map truthy]. destruct (Z.eqb_spec (id c) 0) as [E|_]; [easy|].
  unfold CommentBody, MAX_COMMENT_LENGTH. rewrite strlen_with_marker.
  destruct (Z.leb_spec 65536 (strlen (stringify summary) + 46)).
  - right. split; [lia | reflexivity].
  - left. split; [lia | reflexivity].
Qed.

Lemma first_marked_comment_is_updated_witness :
  (strlen (stringify report) < 65490
   /\ filter is_write
        (trace (commentPr (env_of None ctx_pr (map PageData two_pages)) report
                  always "min"))
      = [UpdateComment "octo" "demo" 42
           ("# Dependency Review" ++ LF ++ LF ++ COMMENT_MARKER)])
  \/ (strlen (stringify report) >= 65490
      /\ filter is_write
           (trace (commentPr (env_of None ctx_pr (map PageData two_pages))
                     report always "min"))
         = [UpdateComment "octo" "demo" 42
              ("min" ++ LF ++ LF ++ COMMENT_MARKER)]).
Proof.
  apply (first_marked_comment_is_updated
           (env_of None ctx_pr (map PageData two_pages)) report always "min"
           (mkPullRequest 7) two_pages
           [mkComment 5 (Some "hello"); mkComment 6 None]
           (mkComment 42 (Some marked_body))
           [mkComment 43 (Some marked_body)]).
  - left. reflexivity.
  - reflexivity.
  - reflexivity.
  - reflexivity.
  - intros c' [<- | [<- | []]] Hm; apply body_includes_iff in Hm;
      discriminate Hm.
  - apply marked_body_Marked.
  - discriminate.
Defined.

(** X2. On a listing that is delivered in full and holds no comment whose
    body contains the marker (an empty listing as well), a run that passes
    both checks creates one comment on the pull request and makes no other
    write request; the body is the rendered body with the marker when the
    rendered body has fewer than 65490 characters, the fallback body with
    the marker otherwise. *)
Theorem unmarked_listing_creates env summary config minComment pr pgs :
  PolicySatisfied env config ->
  pull_request (context env) = Some pr ->
  pages env = map PageData pgs ->
  (forall c, In c (concat pgs) -> ~ Marked COMMENT_MARKER c) ->
  (strlen (stringify summary) < 65490
   /\ filter is_write (trace (commentPr env summary config minComment))
      = [CreateComment (owner (context env)) (repo (context env)) (number pr)
           (stringify summary ++ LF ++ LF ++ COMMENT_MARKER)])
  \/ (strlen (stringify summary) >= 65490
      /\ filter is_write (trace (commentPr env summary config minComment))
         = [CreateComment (owner (context env)) (repo (context env))
              (number pr) (minComment ++ LF ++ LF ++ COMMENT_MARKER)]).
Proof.
  intros Hp Hpr Hpages Hnone.
  rewrite commentPr_writes. unfold expected_writes.
  apply policy_allows_iff in Hp. rewrite Hp, Hpr.
  rewrite (lookup_delivered env pr COMMENT_MARKER pgs Hpr Hpages).
  rewrite find_absent by (intros y Hy; apply not_marked; now apply Hnone).
  cbn [option_map truthy].
  unfold CommentBody, MAX_COMMENT_LENGTH. rewrite strlen_with_marker.
  destruct (Z.leb_spec 65536 (strlen (stringify summary) + 46)).
  - right. split; [lia | reflexivity].
  - left. split; [lia | reflexivity].
Qed.

Lemma unmarked_listing_creates_witness :
  (strlen (stringify big_report) < 65490
   /\ filter is_write
        (trace (commentPr
                  (env_of None ctx_pr
                     (map PageData [[mkComment 5 (Some "hello")]; []]))
                  big_report always "min"))
      = [CreateComment "octo" "demo" 7
           (stringify big_report ++ LF ++ LF ++ COMMENT_MARKER)])
  \/ (strlen (stringify big_report) >= 65490
      /\ filter is_write
           (trace (commentPr
                     (env_of None ctx_pr
                        (map PageData [[mkComment 5 (Some "hello")]; []]))
                     big_report always "min"))
         = [CreateComment "octo" "demo" 7
              ("min" ++ LF ++ LF ++ COMMENT_MARKER)]).
Proof.
  apply (unmarked_listing_creates
           (env_of None ctx_pr
              (map PageData [[mkComment 5 (Some "hello")]; []]))
           big_report always "min" (mkPullRequest 7)
           [[mkComment 5 (Some "hello")]; []]).
  - left. reflexivity.
  - reflexivity.
  - reflexivity.
  - intros c [<- | []] Hm. apply body_includes_iff in Hm. discriminate Hm.
Defined.

(** ** A page request that fails *)

Lemma filter_repeat_all {A} (p : A -> bool) (x : A) (k : nat) :
  p x = true -> filter p (repeat x k) = repeat x k.
Proof.
  intros H. induction k as [|k IH]; [reflexivity|].
  simpl. now rewrite H, IH.
Qed.

Lemma filter_repeat_none {A} (p : A -> bool) (x : A) (k : nat) :
  p x = false -> filter p (repeat x k) = [].
Proof.
  intros H. induction k as [|k IH]; [reflexivity|].
  simpl. now rewrite H.
Qed.

Lemma lookup_fails env pr marker pre e post :
  pull_request (context env) = Some pr ->
  pages env = (pre ++ PageFails e :: post)%list ->
  (forall p, In p pre -> unmarked_page marker p) ->
  findCommentByMarker env marker
  = (repeat (ListComments (owner (context env)) (repo (context env))
               (number pr)) (length pre + 1),
     Throws e).
Proof.
  intros Hpr Hpages Hpre. unfold findCommentByMarker. rewrite Hpr, Hpages.
  rewrite findInPages_unmarked_prefix by exact Hpre.
  cbn [findInPages emit bind throw trace outcome fst snd app].
  now rewrite repeat_app.
Qed.

(** X3. When a page request fails before any marked comment was seen, the
    lookup stops there: the pages up to the failing one are requested and
    none after it, no comment is updated or created, the one warning of
    the [catch] block for that failure is logged, and the run returns
    normally. *)
Theorem failed_page_aborts_run env summary config minComment pr pre e post :
  PolicySatisfied env config ->
  pull_request (context env) = Some pr ->
  pages env = (pre ++ PageFails e :: post)%list ->
  (forall p, In p pre -> unmarked_page COMMENT_MARKER p) ->
  filter is_network (trace (commentPr env summary config minComment))
  = repeat (ListComments (owner (context env)) (repo (context env))
              (number pr)) (length pre + 1)
  /\ filter is_warning (trace (commentPr env summary config minComment))
     = trace (handle_error e)
  /\ outcome (commentPr env summary config minComment) = Returns tt.
Proof.
  intros Hp Hpr Hpages Hpre. apply policy_allows_iff in Hp.
  rewrite (commentPr_gated_trace _ _ _ _ pr Hp Hpr).
  rewrite (lookup_fails env pr COMMENT_MARKER pre e post Hpr Hpages Hpre).
  cbn [trace outcome fst snd after_lookup]. rewrite handle_error_warns.
  cbn [filter is_network is_warning trace fst]. rewrite !filter_app.
  rewrite !size_log_filter by reflexivity.
  rewrite filter_repeat_all, filter_repeat_none by reflexivity.
  cbn [filter is_network is_warning app]. rewrite app_nil_r.
  split; [reflexivity | split; [reflexivity|]].
  now rewrite (commentPr_gated _ _ _ _ pr Hp Hpr).
Qed.

Lemma failed_page_aborts_run_witness :
  filter is_network
    (trace (commentPr
              (env_of None ctx_pr
                 [PageData [mkComment 5 (Some "hello")];
                  PageFails (ThrownError "socket hang up");
                  PageData [mkComment 42 (Some marked_body)]])
              report always "min"))
  = repeat (ListComments "octo" "demo" 7) 2
  /\ filter is_warning
       (trace (commentPr
                 (env_of None ctx_pr
                    [PageData [mkComment 5 (Some "hello")];
                     PageFails (ThrownError "socket hang up");
                     PageData [mkComment 42 (Some marked_body)]])
                 report always "min"))
     = trace (handle_error (ThrownError "socket hang up"))
  /\ outcome (commentPr
                (env_of None ctx_pr
                   [PageData [mkComment 5 (Some "hello")];
                    PageFails (ThrownError "socket hang up");
                    PageData [mkComment 42 (Some marked_body)]])
                report always "min")
     = Returns tt.
Proof.
  apply (failed_page_aborts_run
           (env_of None ctx_pr
              [PageData [mkComment 5 (Some "hello")];
               PageFails (ThrownError "socket hang up");
               PageData [mkComment 42 (Some marked_body)]])
           report always "min" (mkPullRequest 7)
           [PageData [mkComment 5 (Some "hello")]]
           (ThrownError "socket hang up")
           [PageData [mkComment 42 (Some marked_body)]]).
  - left. reflexivity.
  - reflexivity.
  - reflexivity.
  - intros p [<- | []]. exists [mkComment 5 (Some "hello")].
    split; [reflexivity|].
    intros c [<- | []] Hm. apply body_includes_iff in Hm. discriminate Hm.
Defined.

(** ** The submitted body *)

Lemma CommentBody_cases (content fallback : string) :
  (strlen content < 65490
   /\ CommentBody content fallback = content ++ LF ++ LF ++ COMMENT_MARKER)
  \/ (strlen content >= 65490
      /\ CommentBody content fallback = fallback ++ LF ++ LF ++ COMMENT_MARKER).
Proof.
  unfold CommentBody, MAX_COMMENT_LENGTH. rewrite strlen_with_marker.
  destruct (Z.leb_spec 65536 (strlen content + 46)).
  - right. split; [lia | reflexivity].
  - left. split; [lia | reflexivity].
Qed.

Lemma append_assoc (a b c : string) : (a ++ b) ++ c = a ++ b ++ c.
Proof. induction a as [|x a IH]; [reflexivity|]. simpl. now rewrite IH. Qed.

(** X4. Every body the code submits ends with the marker, so a comment
    that carries it is one the lookup recognises. *)
Theorem submitted_body_ends_with_marker env summary config minComment ev b :
  In ev (trace (commentPr env summary config minComment)) ->
  written_body ev = Some b ->
  (exists pre, b = pre ++ COMMENT_MARKER)
  /\ forall n, body_includes COMMENT_MARKER (mkComment n (Some b)) = true.
Proof.
  intros Hin Hb.
  rewrite (written_in_expected _ _ _ _ _ _ Hin Hb).
  assert (H : exists pre,
             CommentBody (stringify summary) minComment
             = pre ++ COMMENT_MARKER).
  { destruct (CommentBody_cases (stringify summary) minComment)
      as [[_ ->] | [_ ->]];
      eexists; rewrite <- !append_assoc; reflexivity. }
  split; [exact H|].
  intros n. destruct H as [pre ->]. unfold body_includes. cbn [body].
  apply includes_append.
Qed.

Lemma submitted_body_ends_with_marker_witness :
  (exists pre,
      "# Dependency Review" ++ LF ++ LF ++ COMMENT_MARKER
      = pre ++ COMMENT_MARKER)
  /\ forall n,
       body_includes COMMENT_MARKER
         (mkComment n
            (Some ("# Dependency Review" ++ LF ++ LF ++ COMMENT_MARKER)))
       = true.
Proof.
  apply (submitted_body_ends_with_marker
           (env_of None ctx_pr [PageData []]) report always "min"
           (CreateComment "octo" "demo" 7
              ("# Dependency Review" ++ LF ++ LF ++ COMMENT_MARKER))).
  - simpl. right. right. left. reflexivity.
  - reflexivity.
Defined.

(** X5. No duplicate on a later run: when the listing is delivered in
    full, its ids are not 0 and it holds a comment whose body was submitted
    by an earlier run (of any input), a run that passes both checks
    creates nothing: its one write request updates a comment of the
    listing that contains the marker. *)
Theorem later_run_updates
    env0 summary0 config0 minComment0 ev b
    env summary config minComment pr pgs c :
  In ev (trace (commentPr env0 summary0 config0 minComment0)) ->
  written_body ev = Some b ->
  PolicySatisfied env config ->
  pull_request (context env) = Some pr ->
  pages env = map PageData pgs ->
  In c (concat pgs) ->
  body c = Some b ->
  (forall c', In c' (concat pgs) -> id c' <> 0) ->
  exists c' b',
    In c' (concat pgs)
    /\ Marked COMMENT_MARKER c'
    /\ filter is_write (trace (commentPr env summary config minComment))
       = [UpdateComment (owner (context env)) (repo (context env)) (id c') b'].
Proof.
  intros Hin Hb Hp Hpr Hpages Hc Hbody Hids.
  assert (Hm : body_includes COMMENT_MARKER c = true).
  { rewrite (written_in_expected _ _ _ _ _ _ Hin Hb) in Hbody.
    unfold body_includes. rewrite Hbody.
    destruct (CommentBody_cases (stringify summary0) minComment0)
      as [[_ ->] | [_ ->]];
      rewrite <- !append_assoc; apply includes_append. }
  destruct (find (body_includes COMMENT_MARKER) (concat pgs)) as [c'|] eqn:E.
  - destruct (find_some _ _ E) as [Hc' Hm'].
    exists c', (CommentBody (stringify summary) minComment).
    split; [exact Hc' | split; [now apply body_includes_iff|]].
    rewrite commentPr_writes. unfold expected_writes.
    apply policy_allows_iff in Hp. rewrite Hp, Hpr.
    rewrite (lookup_delivered env pr COMMENT_MARKER pgs Hpr Hpages), E.
    cbn [option_map truthy].
    destruct (Z.eqb_spec (id c') 0) as [E0|_]; [|reflexivity].
    now elim (Hids c' Hc').
  - rewrite (find_none _ _ E c Hc) in Hm. discriminate Hm.
Qed.

Lemma later_run_updates_witness :
  exists c' b',
    In c' (concat [[mkComment 5 (Some "hello")];
                   [mkComment 9
                      (Some ("# Dependency Review" ++ LF ++ LF
                             ++ COMMENT_MARKER))]])
    /\ Marked COMMENT_MARKER c'
    /\ filter is_write
         (trace (commentPr
                   (env_of (Some 1) ctx_pr
                      (map PageData
                         [[mkComment 5 (Some "hello")];
                          [mkComment 9
                             (Some ("# Dependency Review" ++ LF ++ LF
                                    ++ COMMENT_MARKER))]]))
                   (mkSummary "# Second report") on_failure "min"))
       = [UpdateComment "octo" "demo" (id c') b'].
Proof.
  apply (later_run_updates
           (env_of None ctx_pr [PageData []]) report always "min"
           (CreateComment "octo" "demo" 7
              ("# Dependency Review" ++ LF ++ LF ++ COMMENT_MARKER))
           ("# Dependency Review" ++ LF ++ LF ++ COMMENT_MARKER)
           (env_of (Some 1) ctx_pr
              (map PageData
                 [[mkComment 5 (Some "hello")];
                  [mkComment 9
                     (Some ("# Dependency Review" ++ LF ++ LF
                            ++ COMMENT_MARKER))]]))
           (mkSummary "# Second report") on_failure "min"
           (mkPullRequest 7)
           [[mkComment 5 (Some "hello")];
            [mkComment 9
               (Some ("# Dependency Review" ++ LF ++ LF ++ COMMENT_MARKER))]]
           (mkComment 9
              (Some ("# Dependency Review" ++ LF ++ LF ++ COMMENT_MARKER)))).
  - simpl. right. right. left. reflexivity.
  - reflexivity.
  - right. split; reflexivity.
  - reflexivity.
  - reflexivity.
  - simpl. right. left. reflexivity.
  - reflexivity.
  - intros c' [<- | [<- | []]]; discriminate.
Defined.

(** X6. When the fallback body has fewer than 65490 characters (65536
    less the two line feeds and the 44 characters of the marker), every
    body the code submits is shorter than 65536 characters, whatever the
    length of the rendered body. *)
Theorem submitted_body_under_ceiling env summary config minComment ev b :
  strlen minComment < 65490 ->
  In ev (trace (commentPr env summary config minComment)) ->
  written_body ev = Some b ->
  strlen b < MAX_COMMENT_LENGTH.
Proof.
  intros Hmin Hin Hb.
  rewrite (written_in_expected _ _ _ _ _ _ Hin Hb).
  unfold MAX_COMMENT_LENGTH.
  destruct (CommentBody_cases (stringify summary) minComment)
    as [[H ->] | [H ->]]; rewrite strlen_with_marker; lia.
Qed.

Lemma submitted_body_under_ceiling_witness :
  strlen ("# Dependency Review" ++ LF ++ LF ++ COMMENT_MARKER)
  < MAX_COMMENT_LENGTH.
Proof.
  apply (submitted_body_under_ceiling
           (env_of None ctx_pr [PageData []]) report always "min"
           (CreateComment "octo" "demo" 7
              ("# Dependency Review" ++ LF ++ LF ++ COMMENT_MARKER))).
  - vm_compute. reflexivity.
  - simpl. right. right. left. reflexivity.
  - reflexivity.
Defined.

(** X7. The fallback body itself is not measured: when the rendered body
    and the fallback body both have at least 65490 characters, the body
    submitted is the fallback with the marker, of 65536 characters or
    more. *)
Theorem oversized_fallback_is_submitted env summary config minComment ev b :
  strlen (stringify summary) >= 65490 ->
  strlen minComment >= 65490 ->
  In ev (trace (commentPr env summary config minComment)) ->
  written_body ev = Some b ->
  b = minComment ++ LF ++ LF ++ COMMENT_MARKER
  /\ strlen b >= MAX_COMMENT_LENGTH.
Proof.
  intros Hs Hmin Hin Hb.
  rewrite (written_in_expected _ _ _ _ _ _ Hin Hb).
  unfold MAX_COMMENT_LENGTH.
  destruct (CommentBody_cases (stringify summary) minComment)
    as [[H ->] | [H ->]]; [lia|].
  split; [reflexivity|]. rewrite strlen_with_marker. lia.
Qed.

Lemma oversized_fallback_is_submitted_witness :
  big_fallback ++ LF ++ LF ++ COMMENT_MARKER
  = big_fallback ++ LF ++ LF ++ COMMENT_MARKER
  /\ strlen (big_fallback ++ LF ++ LF ++ COMMENT_MARKER) >= MAX_COMMENT_LENGTH.
Proof.
  apply (oversized_fallback_is_submitted
           (env_of None ctx_pr [PageData []]) big_report always big_fallback
           (CreateComment "octo" "demo" 7
              (big_fallback ++ LF ++ LF ++ COMMENT_MARKER))).
  - vm_compute. discriminate.
  - vm_compute. discriminate.
  - rewrite scenario_big_fallback.
    exact (or_intror (or_intror (or_intror (or_introl eq_refl)))).
  - reflexivity.
Defined.

(** ** The debug line *)

Lemma filter_cons_app {A} (p : A -> bool) (x : A) (l : list A) :
  filter p (x :: l) = (filter p [x] ++ filter p l)%list.
Proof. simpl. now destruct (p x). Qed.

Lemma gated_filter (p : Event -> bool) env summary config minComment pr :
  (forall o r n, p (ListComments o r n) = false) ->
  policy_allows env config = true ->
  pull_request (context env) = Some pr ->
  filter p (trace (commentPr env summary config minComment))
  = (filter p [SetOutput "comment-content" (stringify summary)]
     ++ filter p (size_log (stringify summary))
     ++ filter p (after_lookup env pr
                    (CommentBody (stringify summary) minComment)
                    (outcome (findCommentByMarker env COMMENT_MARKER))))%list.
Proof.
  intros Hread Hp Hpr. rewrite (commentPr_gated_trace _ _ _ _ pr Hp Hpr).
  rewrite filter_cons_app, !filter_app.
  now rewrite (reads_filter p _ Hread (findCommentByMarker_reads env _)).
Qed.

Lemma after_lookup_no_debug env pr b found :
  filter is_debug (after_lookup env pr b found) = [].
Proof.
  destruct found as [v|e]; [|reflexivity]. unfold after_lookup.
  destruct (truthy v); cbn [filter is_debug];
    match goal with |- context [answer ?x] => now destruct x end.
Qed.

(** X8. A debug line is logged exactly when the run passes both checks
    and the rendered body has at least 65490 characters, that is when the
    fallback body is submitted in its place; it is the line that says the
    comment was too big. *)
Theorem debug_iff_fallback env summary config minComment m :
  In (Debug m) (trace (commentPr env summary config minComment))
  <-> m = too_big_debug
      /\ PolicySatisfied env config
      /\ pull_request (context env) <> None
      /\ strlen (stringify summary) >= 65490.
Proof.
  rewrite <- policy_allows_iff.
  assert (Hf : forall l, In (Debug m) l <-> In (Debug m) (filter is_debug l)).
  { intros l. rewrite filter_In. tauto. }
  rewrite Hf.
  destruct (policy_allows env config) eqn:Hp.
  - destruct (pull_request (context env)) as [pr|] eqn:Hpr.
    + rewrite (gated_filter is_debug _ _ _ _ pr (fun _ _ _ => eq_refl) Hp Hpr).
      rewrite after_lookup_no_debug, app_nil_r. cbn [filter is_debug app].
      unfold size_log, MAX_COMMENT_LENGTH. rewrite strlen_with_marker.
      destruct (Z.leb_spec 65536 (strlen (stringify summary) + 46)).
      * cbn [filter is_debug]. split.
        -- intros [E | []]. injection E as <-.
           repeat split; [discriminate | lia].
        -- intros [-> _]. now left.
      * cbn [filter]. split; [intros [] | intros [_ [_ [_ H']]]; lia].
    + rewrite (commentPr_no_pull_request _ _ _ _ Hp Hpr). cbn.
      split; [intros [] | intros [_ [_ [H' _]]]; now elim H'].
  - rewrite (commentPr_rejected _ _ _ _ Hp). cbn.
    split; [intros [] | intros [_ [H' _]]; discriminate H'].
Qed.

(** X9. The fallback body plays no part when the rendered body has fewer
    than 65490 characters: two runs that differ only in the fallback body
    do the same. *)
Theorem fallback_unused_when_short env summary config minComment minComment' :
  strlen (stringify summary) < 65490 ->
  commentPr env summary config minComment
  = commentPr env summary config minComment'.
Proof.
  intros H. unfold commentPr. cbv zeta.
  rewrite strlen_with_marker. unfold MAX_COMMENT_LENGTH.
  destruct (Z.leb_spec 65536 (strlen (stringify summary) + 46)); [lia|].
  reflexivity.
Qed.

Lemma fallback_unused_when_short_witness :
  commentPr (env_of None ctx_pr [PageData []]) report always "min"
  = commentPr (env_of None ctx_pr [PageData []]) report always "other".
Proof.
  apply (fallback_unused_when_short
           (env_of None ctx_pr [PageData []]) report always "min" "other").
  vm_compute. reflexivity.
Defined.

(** ** Order and addressees of the requests *)

Lemma split_at_only (p : Event -> bool) (a c t1 t2 : list Event) w ev :
  (a ++ w :: c = t1 ++ ev :: t2)%list ->
  filter p a = [] -> filter p c = [] -> p ev = true ->
  t2 = c.
Proof.
  revert t1. induction a as [|x a IH]; intros t1 E Ha Hc Hev.
  - destruct t1 as [|y t1]; cbn [app] in E.
    + now injection E.
    + injection E as _ E.
      assert (H : In ev (filter p c)).
      { apply filter_In. split; [|exact Hev]. rewrite E.
        apply in_or_app. right. now left. }
      rewrite Hc in H. destruct H.
  - cbn [filter] in Ha. destruct (p x) eqn:Hx; [discriminate Ha|].
    destruct t1 as [|y t1]; cbn [app] in E.
    + injection E as -> _. congruence.
    + injection E as _ E. now apply (IH t1).
Qed.

Lemma caught_shape {A} (o : Outcome A) :
  caught o = [] \/ exists e, o = Throws e /\ caught o = trace (handle_error e).
Proof.
  destruct o as [a|e]; [now left|]. right. exists e.
  now rewrite handle_error_warns.
Qed.

Lemma answer_throws (x : option Thrown) e :
  answer x = Throws e -> x = Some e.
Proof. destruct x; simpl; congruence. Qed.

(** X10. The write request is the last request of a run: after it comes
    nothing, or only the warning of the [catch] block for what that write
    threw.  A failed write is not tried again and nothing is read back. *)
Theorem write_is_last env summary config minComment t1 ev t2 :
  trace (commentPr env summary config minComment) = (t1 ++ ev :: t2)%list ->
  is_write ev = true ->
  t2 = []
  \/ exists e,
       t2 = trace (handle_error e)
       /\ ((exists n b, updateComment_throws env n b = Some e)
           \/ (exists n b, createComment_throws env n b = Some e)).
Proof.
  intros E Hev.
  assert (Hin : In ev (filter is_write
                         (trace (commentPr env summary config minComment)))).
  { apply filter_In. split; [|exact Hev]. rewrite E.
    apply in_or_app. right. now left. }
  destruct (policy_allows env config) eqn:Hp;
    [|rewrite (commentPr_rejected _ _ _ _ Hp) in Hin; destruct Hin].
  destruct (pull_request (context env)) as [pr|] eqn:Hpr;
    [|rewrite (commentPr_no_pull_request _ _ _ _ Hp Hpr) in Hin; destruct Hin].
  clear Hin. rewrite (commentPr_gated_trace _ _ _ _ pr Hp Hpr) in E.
  assert (Hpre : filter is_write
                   (SetOutput "comment-content" (stringify summary)
                    :: size_log (stringify summary)
                    ++ trace (findCommentByMarker env COMMENT_MARKER))%list
                 = []).
  { cbn [filter is_write]. rewrite filter_app.
    rewrite size_log_filter by reflexivity.
    now rewrite (reads_filter is_write _ (fun _ _ _ => eq_refl)
                   (findCommentByMarker_reads env _)). }
  rewrite app_comm_cons, app_assoc in E. rewrite <- app_comm_cons in E.
  unfold after_lookup in E.
  destruct (outcome (findCommentByMarker env COMMENT_MARKER)) as [v|e].
  - destruct (truthy v) as [n|].
    + apply (split_at_only is_write) in E;
        [|exact Hpre|now apply caught_filter|exact Hev].
      rewrite E.
      destruct (caught_shape
                  (answer (updateComment_throws env n
                             (CommentBody (stringify summary) minComment))))
        as [-> | [e [He ->]]]; [now left|].
      right. exists e. split; [reflexivity|]. left.
      apply answer_throws in He. eauto.
    + apply (split_at_only is_write) in E;
        [|exact Hpre|now apply caught_filter|exact Hev].
      rewrite E.
      destruct (caught_shape
                  (answer (createComment_throws env (number pr)
                             (CommentBody (stringify summary) minComment))))
        as [-> | [e [He ->]]]; [now left|].
      right. exists e. split; [reflexivity|]. right.
      apply answer_throws in He. eauto.
  - exfalso.
    assert (H : In ev (filter is_write (t1 ++ ev :: t2)%list)).
    { apply filter_In. split; [|exact Hev]. apply in_or_app. right. now left. }
    rewrite <- E, filter_app, Hpre in H. destruct H.
Qed.

Lemma write_is_last_witness :
  trace (handle_error
           (ThrownRequestError 403 "Resource not accessible by integration"))
  = []
  \/ exists e,
       trace (handle_error
                (ThrownRequestError 403
                   "Resource not accessible by integration"))
       = trace (handle_error e)
       /\ ((exists n b, never_throws n b = Some e)
           \/ (exists n b, forbidden n b = Some e)).
Proof.
  apply (write_is_last
           (mkEnv None ctx_pr [PageData []] never_throws forbidden)
           report always "min"
           [SetOutput "comment-content" "# Dependency Review";
            ListComments "octo" "demo" 7]
           (CreateComment "octo" "demo" 7
              ("# Dependency Review" ++ LF ++ LF ++ COMMENT_MARKER))).
  - reflexivity.
  - reflexivity.
Defined.

Lemma lookup_trace_repeat env pr marker :
  pull_request (context env) = Some pr ->
  exists k,
    trace (findCommentByMarker env marker)
    = repeat (ListComments (owner (context env)) (repo (context env))
                (number pr)) k.
Proof.
  intros Hpr. unfold findCommentByMarker. rewrite Hpr.
  destruct (findInPages_trace (owner (context env)) (repo (context env))
              (number pr) marker (pages env)) as [k [_ H]].
  now exists k.
Qed.

Lemma caught_addressed {A} (o : Outcome A) ctx ev :
  In ev (caught o) -> addressed_to ctx ev.
Proof. destruct o; [intros [] | intros [<- | []]; exact I]. Qed.

(** X11. Every request of a run goes to the repository of the context;
    the listing and the creation name the pull request of the context.
    No other repository or issue is touched. *)
Theorem requests_addressed_to_context env summary config minComment ev :
  In ev (trace (commentPr env summary config minComment)) ->
  addressed_to (context env) ev.
Proof.
  intros Hin.
  destruct (policy_allows env config) eqn:Hp.
  - destruct (pull_request (context env)) as [pr|] eqn:Hpr.
    + rewrite (commentPr_gated_trace _ _ _ _ pr Hp Hpr) in Hin.
      destruct Hin as [<- | Hin]; [exact I|].
      apply in_app_or in Hin. destruct Hin as [Hin | Hin].
      { unfold size_log in Hin. destruct (MAX_COMMENT_LENGTH <=? _);
          [destruct Hin as [<- | []]; exact I | destruct Hin]. }
      apply in_app_or in Hin. destruct Hin as [Hin | Hin].
      { destruct (lookup_trace_repeat env pr COMMENT_MARKER Hpr) as [k Hk].
        rewrite Hk in Hin. apply repeat_spec in Hin as ->.
        cbn. repeat split. exists pr. now split. }
      unfold after_lookup in Hin.
      destruct (outcome (findCommentByMarker env COMMENT_MARKER)) as [v|e].
      * destruct (truthy v) as [n|]; destruct Hin as [<- | Hin].
        -- cbn. now split.
        -- exact (caught_addressed _ _ _ Hin).
        -- cbn. repeat split. exists pr. now split.
        -- exact (caught_addressed _ _ _ Hin).
      * destruct Hin as [<- | []]. exact I.
    + rewrite (commentPr_no_pull_request _ _ _ _ Hp Hpr) in Hin.
      destruct Hin as [<- | [<- | []]]; exact I.
  - rewrite (commentPr_rejected _ _ _ _ Hp) in Hin.
    destruct Hin as [<- | []]. exact I.
Qed.

Lemma requests_addressed_to_context_witness :
  addressed_to ctx_pr
    (CreateComment "octo" "demo" 7
       ("# Dependency Review" ++ LF ++ LF ++ COMMENT_MARKER)).
Proof.
  apply (requests_addressed_to_context
           (env_of None ctx_pr [PageData []]) report always "min").
  simpl. right. right. left. reflexivity.
Defined.

(** ** Warnings *)

Lemma findInPages_throws_page o r n marker ps e :
  outcome (findInPages o r n marker ps) = Throws e -> In (PageFails e) ps.
Proof.
  induction ps as [|[cs|e'] ps IH]; [discriminate| |].
  - rewrite findInPages_cons_data.
    destruct (find (body_includes marker) cs); [discriminate|].
    cbn [outcome snd]. intros H. right. now apply IH.
  - cbn. intros H. left. congruence.
Qed.

Lemma after_lookup_warnings env pr b found :
  filter is_warning (after_lookup env pr b found) = []
  \/ exists e,
       filter is_warning (after_lookup env pr b found)
       = [Warning (warning_for e)]
       /\ (found = Throws e
           \/ (exists n b', updateComment_throws env n b' = Some e)
           \/ (exists n b', createComment_throws env n b' = Some e)).
Proof.
  destruct found as [v|e]; cbn [after_lookup].
  - destruct (truthy v) as [n|]; cbn [filter is_warning].
    + destruct (updateComment_throws env n b) as [e|] eqn:E; [|now left].
      right. exists e. split; [reflexivity|]. right. left. eauto.
    + destruct (createComment_throws env (number pr) b) as [e|] eqn:E;
        [|now left].
      right. exists e. split; [reflexivity|]. right. right. eauto.
  - right. exists e. split; [reflexivity | now left].
Qed.

(** X12. A run logs at most one warning.  It is the notice that the run
    is outside a pull request, or the warning of the [catch] block for a
    value that a page request or a write request threw: the lookup is
    never reached without a pull request, so its read of the pull request
    number does not fail. *)
Theorem warnings_come_from_the_remote env summary config minComment :
  (length (filter is_warning
             (trace (commentPr env summary config minComment))) <= 1)%nat
  /\ forall w,
       In (Warning w) (trace (commentPr env summary config minComment)) ->
       (w = not_in_pr_warning /\ pull_request (context env) = None)
       \/ exists e,
            remote_may_throw env e
            /\ trace (handle_error e) = [Warning w].
Proof.
  assert (Hf : forall w l,
             In (Warning w) l -> In (Warning w) (filter is_warning l)).
  { intros w l H. apply filter_In. now split. }
  destruct (policy_allows env config) eqn:Hp.
  - destruct (pull_request (context env)) as [pr|] eqn:Hpr.
    + pose proof (gated_filter is_warning env summary config minComment pr
                    (fun _ _ _ => eq_refl) Hp Hpr) as Hw.
      rewrite size_log_filter in Hw by reflexivity.
      cbn [filter is_warning app] in Hw.
      destruct (after_lookup_warnings env pr
                  (CommentBody (stringify summary) minComment)
                  (outcome (findCommentByMarker env COMMENT_MARKER)))
        as [H0 | [e [H1 Horigin]]].
      * rewrite H0 in Hw. split; [rewrite Hw; simpl; lia|].
        intros w Hin. apply Hf in Hin. rewrite Hw in Hin. destruct Hin.
      * rewrite H1 in Hw. split; [rewrite Hw; simpl; lia|].
        intros w Hin. apply Hf in Hin. rewrite Hw in Hin.
        destruct Hin as [Hin | []]. injection Hin as <-.
        right. exists e. split; [|now rewrite handle_error_warns].
        unfold remote_may_throw.
        destruct Horigin as [E | [E | E]]; [left | now right; left | now right; right].
        unfold findCommentByMarker in E. rewrite Hpr in E.
        now apply findInPages_throws_page in E.
    + rewrite (commentPr_no_pull_request _ _ _ _ Hp Hpr). cbn.
      split; [lia|]. intros w [Hw | [Hw | []]]; [discriminate Hw|].
      left. split; congruence.
  - rewrite (commentPr_rejected _ _ _ _ Hp). cbn.
    split; [lia|]. intros w [Hw | []]. discriminate Hw.
Qed.

Lemma warnings_come_from_the_remote_witness :
  (permission_warning = not_in_pr_warning
   /\ pull_request
        (context (mkEnv None ctx_pr [PageData []] never_throws forbidden))
      = None)
  \/ exists e,
       remote_may_throw
         (mkEnv None ctx_pr [PageData []] never_throws forbidden) e
       /\ trace (handle_error e) = [Warning permission_warning].
Proof.
  apply (proj2 (warnings_come_from_the_remote
                  (mkEnv None ctx_pr [PageData []] never_throws forbidden)
                  report always "min")).
  simpl. right. right. right. left. reflexivity.
Defined.

(** ** Pages after the match *)

Lemma findInPages_ignores_rest o r n marker pre cs post post' c :
  In c cs -> Marked marker c ->
  findInPages o r n marker (pre ++ PageData cs :: post)
  = findInPages o r n marker (pre ++ PageData cs :: post').
Proof.
  intros Hin Hc. induction pre as [|p pre IH]; cbn [app].
  - rewrite !findInPages_cons_data.
    now destruct (marked_found marker cs c Hin Hc) as [c' ->].
  - destruct p as [cs'|e]; [|reflexivity].
    rewrite !findInPages_cons_data. now rewrite IH.
Qed.

(** X13. What the listing holds after the first page with a marked
    comment does not matter: two worlds that agree up to that page give
    the same lookup, requests and result alike, and so the same run. *)
Theorem pages_after_match_irrelevant
    env env' summary config minComment pre cs post post' c :
  exitCode env = exitCode env' ->
  context env = context env' ->
  updateComment_throws env = updateComment_throws env' ->
  createComment_throws env = createComment_throws env' ->
  pages env = (pre ++ PageData cs :: post)%list ->
  pages env' = (pre ++ PageData cs :: post')%list ->
  In c cs ->
  Marked COMMENT_MARKER c ->
  findCommentByMarker env COMMENT_MARKER
  = findCommentByMarker env' COMMENT_MARKER
  /\ commentPr env summary config minComment
     = commentPr env' summary config minComment.
Proof.
  intros Hx Hctx Hu Hcr Hp Hp' Hin Hc.
  assert (Hfind : findCommentByMarker env COMMENT_MARKER
                  = findCommentByMarker env' COMMENT_MARKER).
  { unfold findCommentByMarker. rewrite <- Hctx, Hp, Hp'.
    destruct (pull_request (context env)); [|reflexivity].
    now apply findInPages_ignores_rest with c. }
  split; [exact Hfind|].
  unfold commentPr, commentPr_try, policy_allows, updateComment, createComment.
  now rewrite <- Hx, <- Hctx, <- Hu, <- Hcr, <- Hfind.
Qed.

Lemma pages_after_match_irrelevant_witness :
  findCommentByMarker
    (env_of None ctx_pr
       [PageData [mkComment 42 (Some marked_body)];
        PageData [mkComment 43 (Some marked_body)]])
    COMMENT_MARKER
  = findCommentByMarker
      (env_of None ctx_pr
         [PageData [mkComment 42 (Some marked_body)];
          PageFails ThrownOther])
      COMMENT_MARKER
  /\ commentPr
       (env_of None ctx_pr
          [PageData [mkComment 42 (Some marked_body)];
           PageData [mkComment 43 (Some marked_body)]])
       report always "min"
     = commentPr
         (env_of None ctx_pr
            [PageData [mkComment 42 (Some marked_body)];
             PageFails ThrownOther])
         report always "min".
Proof.
  apply (pages_after_match_irrelevant
           (env_of None ctx_pr
              [PageData [mkComment 42 (Some marked_body)];
               PageData [mkComment 43 (Some marked_body)]])
           (env_of None ctx_pr
              [PageData [mkComment 42 (Some marked_body)];
               PageFails ThrownOther])
           report always "min" []
           [mkComment 42 (Some marked_body)]
           [PageData [mkComment 43 (Some marked_body)]]
           [PageFails ThrownOther]
           (mkComment 42 (Some marked_body))
           eq_refl eq_refl eq_refl eq_refl eq_refl eq_refl
           (or_introl eq_refl) (marked_body_Marked 42)).
Defined.

(** ** What the lookup's answer means *)

Lemma findInPages_sound o r n marker ps v :
  outcome (findInPages o r n marker ps) = Returns v ->
  match v with
  | Some i =>
      exists cs c,
        In (PageData cs) ps /\ In c cs /\ id c = i /\ Marked marker c
  | None => forall p, In p ps -> unmarked_page marker p
  end.
Proof.
  induction ps as [|[cs|e] ps IH].
  - cbn. intros H. injection H as <-. intros p [].
  - rewrite findInPages_cons_data.
    destruct (find (body_includes marker) cs) as [c|] eqn:E.
    + cbn. intros H. injection H as <-.
      destruct (find_some _ _ E) as [Hc Hm].
      exists cs, c. repeat split; [now left | exact Hc|].
      now apply body_includes_iff.
    + cbn [outcome snd]. intros H. specialize (IH H). destruct v as [i|].
      * destruct IH as [cs' [c [H1 H2]]]. exists cs', c.
        split; [now right | exact H2].
      * intros p [<- | Hp]; [|now apply IH].
        exists cs. split; [reflexivity|].
        intros c Hc Hm. apply body_includes_iff in Hm.
        rewrite (find_none _ _ E c Hc) in Hm. discriminate Hm.
  - cbn. discriminate.
Qed.

Lemma findCommentByMarker_sound_aux env marker v :
  outcome (findCommentByMarker env marker) = Returns v ->
  match v with
  | Some i =>
      exists cs c,
        In (PageData cs) (pages env) /\ In c cs /\ id c = i /\ Marked marker c
  | None => forall p, In p (pages env) -> unmarked_page marker p
  end.
Proof.
  unfold findCommentByMarker.
  destruct (pull_request (context env)) as [pr|]; [|discriminate].
  apply findInPages_sound.
Qed.

(** X14. The lookup's answer can be trusted, whatever the remote does:
    an id it returns is the id of a comment of a delivered page whose body
    contains the marker; it returns nothing only when every page was
    delivered and none holds such a comment. *)
Theorem findCommentByMarker_sound env marker v :
  outcome (findCommentByMarker env marker) = Returns v ->
  match v with
  | Some i =>
      exists cs c,
        In (PageData cs) (pages env) /\ In c cs /\ id c = i /\ Marked marker c
  | None => forall p, In p (pages env) -> unmarked_page marker p
  end.
Proof. apply findCommentByMarker_sound_aux. Qed.

Lemma findCommentByMarker_sound_witness :
  exists cs c,
    In (PageData cs)
      (pages (env_of None ctx_pr
                [PageData [mkComment 42 (Some marked_body)];
                 PageFails ThrownOther]))
    /\ In c cs /\ id c = 42 /\ Marked COMMENT_MARKER c.
Proof.
  apply (findCommentByMarker_sound
           (env_of None ctx_pr
              [PageData [mkComment 42 (Some marked_body)];
               PageFails ThrownOther])
           COMMENT_MARKER (Some 42)).
  reflexivity.
Defined.

(** X15. A run only updates a comment of the listing whose body contains
    the marker, and it creates a comment only when the whole listing was
    delivered without such a comment, or when the marked comment found has
    the id 0. *)
Theorem writes_follow_the_listing env summary config minComment ev :
  In ev (trace (commentPr env summary config minComment)) ->
  match ev with
  | UpdateComment _ _ i _ =>
      i <> 0
      /\ exists cs c,
           In (PageData cs) (pages env) /\ In c cs /\ id c = i
           /\ Marked COMMENT_MARKER c
  | CreateComment _ _ _ _ =>
      (forall p, In p (pages env) -> unmarked_page COMMENT_MARKER p)
      \/ exists cs c,
           In (PageData cs) (pages env) /\ In c cs /\ id c = 0
           /\ Marked COMMENT_MARKER c
  | _ => True
  end.
Proof.
  intros Hin.
  destruct (is_write ev) eqn:Hw; [|now destruct ev].
  assert (H : In ev (expected_writes env summary config minComment)).
  { rewrite <- commentPr_writes. apply filter_In. now split. }
  unfold expected_writes in H.
  destruct (policy_allows env config); [|destruct H].
  destruct (pull_request (context env)) as [pr|]; [|destruct H].
  destruct (outcome (findCommentByMarker env COMMENT_MARKER)) as [v|e] eqn:E;
    [|destruct H].
  apply findCommentByMarker_sound_aux in E.
  destruct v as [i|]; cbn [truthy] in H.
  - destruct (Z.eqb_spec i 0) as [-> | Hi]; destruct H as [<- | []].
    + now right.
    + now split.
  - destruct H as [<- | []]. now left.
Qed.

Lemma writes_follow_the_listing_witness :
  42 <> 0
  /\ exists cs c,
       In (PageData cs)
         (pages (env_of None ctx_pr (map PageData two_pages)))
       /\ In c cs /\ id c = 42 /\ Marked COMMENT_MARKER c.
Proof.
  apply (writes_follow_the_listing
           (env_of None ctx_pr (map PageData two_pages)) report always "min"
           (UpdateComment "octo" "demo" 42
              ("# Dependency Review" ++ LF ++ LF ++ COMMENT_MARKER))).
  simpl. right. right. right. left. reflexivity.
Defined.
